(** * Reddit persona generator: a shallow embedding of [reddit_persona.py]

    The development follows the layout of the script:
    - Python values the script relies on ([str] methods, [datetime],
      binary64 floats, insertion-ordered dictionaries);
    - the fetcher [extract_user_info];
    - the analysis ([_analyze_comment], [_analyze_post],
      [_analyze_activity_time], [analyze_persona]);
    - the renderer [generate_persona_file];
    - the command-line driver [main];
    - the properties of the above.

    Texts are [string]s and Python integers are [Z].  The [str] methods
    and the regular expression are modelled as Python has them on ASCII
    texts: what Python does with other characters (the spaces of Unicode,
    letters outside a-z as word characters, lowercasing outside A-Z) is not
    modelled, and a property that depends on it is stated for ASCII
    texts. *)

From Stdlib Require Import ZArith Ascii String List Bool Lia Permutation Sorted.
From stdpp Require Import base tactics option list strings gmap.

Set Default Proof Using "Type".

(** ** Exceptions and the state-and-exception monad *)

(** The exceptions of the script's own computations, and those raised
    outside it (by [configparser], by [praw], by the file system), the
    latter under their class name. *)
Inductive exn : Type :=
  | ZeroDivisionError
  | OverflowError
  | ValueError
  | LibraryError (class_name : string).

Inductive result (A : Type) : Type :=
  | Ok (a : A)
  | Raise (e : exn).
Arguments Ok {A} a.
Arguments Raise {A} e.

(** A computation over a mutable store [S] (the persona dictionary during
    the analysis, the open file during rendering).  The store survives an
    exception: what was mutated or written before the [raise] stays. *)
Definition ST (S A : Type) : Type := S -> S * result A.

Definition ret {S A} (a : A) : ST S A := fun s => (s, Ok a).

Definition raise {S A} (e : exn) : ST S A := fun s => (s, Raise e).

Definition bind {S A B} (m : ST S A) (k : A -> ST S B) : ST S B :=
  fun s =>
    match m s with
    | (s', Ok a) => k a s'
    | (s', Raise e) => (s', Raise e)
    end.

Definition modify {S} (f : S -> S) : ST S unit := fun s => (f s, Ok tt).

Definition get {S} : ST S S := fun s => (s, Ok s).

Definition lift {S A} (r : result A) : ST S A := fun s => (s, r).

Declare Scope st_scope.
Delimit Scope st_scope with st.
Notation "x <- m ;; k" := (bind m (fun x => k))
  (at level 100, m at next level, right associativity) : st_scope.
Notation "m ;; k" := (bind m (fun _ => k))
  (at level 100, right associativity) : st_scope.

(** [for x in l: body x] *)
Fixpoint for_each {S A} (l : list A) (body : A -> ST S unit) : ST S unit :=
  match l with
  | [] => ret tt
  | x :: l' => (body x ;; for_each l' body)%st
  end.

(** ** Python [str] methods, on ASCII texts *)

Module Str.

Definition code (c : ascii) : N := N_of_ascii c.

Definition in_range (lo hi : N) (c : ascii) : bool :=
  (lo <=? code c)%N && (code c <=? hi)%N.

Definition is_upper (c : ascii) : bool := in_range 65 90 c.
Definition is_lower (c : ascii) : bool := in_range 97 122 c.
Definition is_digit (c : ascii) : bool := in_range 48 57 c.

(** [str.isspace] on one ASCII character: TAB, LF, VT, FF, CR, the four
    separators FS, GS, RS, US, and the space.  Python has further spaces
    outside ASCII (U+0085, U+00A0, U+2000 to U+200A and others), which
    [split] and [strip] take as well. *)
Definition is_space (c : ascii) : bool :=
  in_range 9 13 c || in_range 28 32 c.

(** The regular expression class [\w] on one ASCII character.  Python
    takes the letters and digits outside ASCII as word characters too. *)
Definition is_word (c : ascii) : bool :=
  is_upper c || is_lower c || is_digit c || (code c =? 95)%N.

(** The lowercase of one ASCII character.  Outside ASCII Python lowers
    further letters, two of them to ASCII ones (U+212A to k, U+0130 to i
    and a combining dot). *)
Definition to_lower (c : ascii) : ascii :=
  if is_upper c then ascii_of_N (code c + 32) else c.

Definition to_upper (c : ascii) : ascii :=
  if is_lower c then ascii_of_N (code c - 32) else c.

(** [s.lower()] *)
Fixpoint lower (s : string) : string :=
  match s with
  | EmptyString => EmptyString
  | String c s' => String (to_lower c) (lower s')
  end.

(** [s.capitalize()] *)
Definition capitalize (s : string) : string :=
  match s with
  | EmptyString => EmptyString
  | String c s' => String (to_upper c) (lower s')
  end.

(** [s.startswith(p)] *)
Fixpoint startswith (p s : string) : bool :=
  match p, s with
  | EmptyString, _ => true
  | String a p', String b s' => if ascii_dec a b then startswith p' s' else false
  | String _ _, EmptyString => false
  end.

(** [sub in s] *)
Fixpoint contains (sub s : string) : bool :=
  startswith sub s ||
  match s with
  | EmptyString => false
  | String _ s' => contains sub s'
  end.

(** [any(w in s for w in words)] *)
Definition any_in (words : list string) (s : string) : bool :=
  existsb (fun w => contains w s) words.

(** [s.split()]: the maximal runs of non-space characters.  [cur] is the
    run being read, reversed; [None] between runs. *)
Fixpoint split_ws_go (cur : option string) (s : string) : list string :=
  match s with
  | EmptyString =>
      match cur with
      | None => []
      | Some w => [String.rev w]
      end
  | String c s' =>
      if is_space c then
        match cur with
        | None => split_ws_go None s'
        | Some w => String.rev w :: split_ws_go None s'
        end
      else
        match cur with
        | None => split_ws_go (Some (String c EmptyString)) s'
        | Some w => split_ws_go (Some (String c w)) s'
        end
  end.

Definition split_ws (s : string) : list string := split_ws_go None s.

(** [s.lstrip(chars)], [s.rstrip(chars)], [s.strip(chars)] with the set
    of stripped characters given as a predicate. *)
Fixpoint lstrip (drop : ascii -> bool) (s : string) : string :=
  match s with
  | EmptyString => EmptyString
  | String c s' => if drop c then lstrip drop s' else s
  end.

Fixpoint rstrip (drop : ascii -> bool) (s : string) : string :=
  match s with
  | EmptyString => EmptyString
  | String c s' =>
      match rstrip drop s' with
      | EmptyString => if drop c then EmptyString else String c EmptyString
      | r => String c r
      end
  end.

Definition strip (drop : ascii -> bool) (s : string) : string :=
  rstrip drop (lstrip drop s).

Definition is_slash (c : ascii) : bool := (code c =? 47)%N.

(** [s.split(sep)] for a non-empty [sep]: a left-to-right scan for
    non-overlapping occurrences.  [skip] counts the characters of an
    occurrence still to be passed over; [cur] is the piece being read,
    reversed. *)
Fixpoint split_go (sep : string) (skip : nat) (cur : string) (s : string)
  : list string :=
  match skip with
  | S k =>
      match s with
      | EmptyString => [String.rev cur]
      | String _ s' => split_go sep k cur s'
      end
  | O =>
      match s with
      | EmptyString => [String.rev cur]
      | String c s' =>
          if startswith sep s
          then String.rev cur :: split_go sep (String.length sep - 1) EmptyString s'
          else split_go sep O (String c cur) s'
      end
  end.

Definition split (sep s : string) : list string :=
  split_go sep O EmptyString s.

(** [l[-1]] on the result of a split, which is never empty. *)
Definition last_piece (l : list string) : string := List.last l EmptyString.

(** Decimal rendering of a natural number, most significant digit first.
    [fuel] bounds the number of digits. *)
Definition digit_char (d : Z) : ascii := ascii_of_N (48 + Z.to_N d).

Fixpoint digits_go (fuel : nat) (n : Z) (acc : string) : string :=
  match fuel with
  | O => acc
  | S f =>
      let acc' := String (digit_char (n mod 10)) acc in
      if (n <? 10)%Z then acc' else digits_go f (n / 10)%Z acc'
  end.

Definition of_nonneg (n : Z) : string :=
  digits_go (S (Z.to_nat (Z.log2 n))) n EmptyString.

(** [str(n)] for a Python integer *)
Definition of_Z (n : Z) : string :=
  if (n <? 0)%Z then String "-" (of_nonneg (- n)) else of_nonneg n.

(** [str(b)] for a Python boolean *)
Definition of_bool (b : bool) : string := if b then "True" else "False".

End Str.

(** ** Insertion-ordered dictionaries

    A Python [dict] (here always a [defaultdict]) iterates in insertion
    order, and both the ranking and the report depend on that order, so
    such a dictionary is an association list with one entry per key.  A
    key is inserted at the end the first time it is written. *)

Module ODict.

Definition t (V : Type) : Type := list (string * V).

Definition empty {V} : t V := [].

Fixpoint get {V} (k : string) (d : t V) : option V :=
  match d with
  | [] => None
  | (k', v) :: d' => if decide (k' = k) then Some v else get k d'
  end.

(** [d[k]] read on a [defaultdict] whose factory yields [dflt] *)
Definition get_default {V} (dflt : V) (k : string) (d : t V) : V :=
  match get k d with
  | Some v => v
  | None => dflt
  end.

(** [d[k] = f(d[k])] on a [defaultdict] whose factory yields [dflt]:
    this is both [d[k].append(x)] and [d[k] += 1]. *)
Fixpoint update {V} (dflt : V) (f : V -> V) (k : string) (d : t V) : t V :=
  match d with
  | [] => [(k, f dflt)]
  | (k', v) :: d' =>
      if decide (k' = k) then (k', f v) :: d'
      else (k', v) :: update dflt f k d'
  end.

Definition keys {V} (d : t V) : list string := map fst d.
Definition values {V} (d : t V) : list V := map snd d.

(** [len(d)] *)
Definition len {V} (d : t V) : Z := Z.of_nat (length d).

End ODict.

(** ** [datetime]: dates, [strftime] and [strptime] for ['%Y-%m-%d'] *)

Module Datetime.

Local Open Scope Z_scope.

Record datetime : Type := mk_datetime {
  year : Z; month : Z; day : Z;
  hour : Z; minute : Z; second : Z
}.

Definition is_leap (y : Z) : bool :=
  (y mod 4 =? 0) && (negb (y mod 100 =? 0) || (y mod 400 =? 0)).

Definition days_in_month (y m : Z) : Z :=
  if m =? 2 then (if is_leap y then 29 else 28)
  else if (m =? 4) || (m =? 6) || (m =? 9) || (m =? 11) then 30
  else 31.

(** The range check of the [date] constructor. *)
Definition valid_date (y m d : Z) : bool :=
  (1 <=? y) && (y <=? 9999) && (1 <=? m) && (m <=? 12) &&
  (1 <=? d) && (d <=? days_in_month y m).

Definition valid (dt : datetime) : bool :=
  valid_date (year dt) (month dt) (day dt) &&
  (0 <=? hour dt) && (hour dt <=? 23) &&
  (0 <=? minute dt) && (minute dt <=? 59) &&
  (0 <=? second dt) && (second dt <=? 59).

(** [%m] and [%d] print two digits. *)
Definition two_digits (n : Z) : string :=
  String (Str.digit_char (n / 10)) (String (Str.digit_char (n mod 10)) EmptyString).

(** [dt.strftime('%Y-%m-%d')].  [%Y] prints the year in decimal without
    padding, as the C library of the platform does. *)
Definition strftime_ymd (dt : datetime) : string :=
  Str.of_nonneg (year dt) +:+ "-" +:+ two_digits (month dt) +:+ "-" +:+
  two_digits (day dt).

(** *** [strptime(s, '%Y-%m-%d')]

    The format is compiled to the regular expression
    [(\d\d\d\d)-(1[0-2]|0[1-9]|[1-9])-(3[01]|[12]\d|0[1-9]|[1-9]| [1-9])],
    matched at the start of the text; text left over is an error, and so
    is a day that the month does not have.  Each parser below returns
    the number read and the rest of the text. *)

Definition digit_val (c : ascii) : Z := Z.of_N (Str.code c) - 48.

Definition parser : Type := string -> option (Z * string).

Definition one_of (p : ascii -> bool) : parser := fun s =>
  match s with
  | String a rest => if p a then Some (digit_val a, rest) else None
  | EmptyString => None
  end.

Definition two_of (p1 p2 : ascii -> bool) : parser := fun s =>
  match s with
  | String a (String b rest) =>
      if p1 a && p2 b then Some (10 * digit_val a + digit_val b, rest) else None
  | _ => None
  end.

(** a space, then one character of [p] *)
Definition blank_then (p : ascii -> bool) : parser := fun s =>
  match s with
  | String a (String b rest) =>
      if (Str.code a =? 32)%N && p b then Some (digit_val b, rest) else None
  | _ => None
  end.

(** [r1|r2]: the first alternative that matches *)
Definition or_else (p1 p2 : parser) : parser := fun s =>
  match p1 s with
  | Some r => Some r
  | None => p2 s
  end.

Definition parse_Y : parser := fun s =>
  match s with
  | String a (String b (String c (String d rest))) =>
      if Str.is_digit a && Str.is_digit b && Str.is_digit c && Str.is_digit d
      then Some (1000 * digit_val a + 100 * digit_val b
                 + 10 * digit_val c + digit_val d, rest)
      else None
  | _ => None
  end.

Definition parse_m : parser :=
  or_else (two_of (Str.in_range 49 49) (Str.in_range 48 50))
 (or_else (two_of (Str.in_range 48 48) (Str.in_range 49 57))
          (one_of (Str.in_range 49 57))).

Definition parse_d : parser :=
  or_else (two_of (Str.in_range 51 51) (Str.in_range 48 49))
 (or_else (two_of (Str.in_range 49 50) Str.is_digit)
 (or_else (two_of (Str.in_range 48 48) (Str.in_range 49 57))
 (or_else (one_of (Str.in_range 49 57))
          (blank_then (Str.in_range 49 57))))).

Definition expect_dash (s : string) : option string :=
  match s with
  | String c rest => if (Str.code c =? 45)%N then Some rest else None
  | EmptyString => None
  end.

(** The fields the format does not mention keep their default: the
    time of day is midnight. *)
Definition strptime_ymd (s : string) : result datetime :=
  match parse_Y s with
  | None => Raise ValueError
  | Some (y, s1) =>
  match expect_dash s1 with
  | None => Raise ValueError
  | Some s2 =>
  match parse_m s2 with
  | None => Raise ValueError
  | Some (m, s3) =>
  match expect_dash s3 with
  | None => Raise ValueError
  | Some s4 =>
  match parse_d s4 with
  | None => Raise ValueError
  | Some (d, EmptyString) =>
      if valid_date y m d then Ok (mk_datetime y m d 0 0 0)
      else Raise ValueError
  | Some (_, String _ _) => Raise ValueError
  end end end end end.

(** [date.toordinal()]: the day number, 1 being 0001-01-01. *)
Definition days_before_year (y : Z) : Z :=
  let y' := y - 1 in y' * 365 + y' / 4 - y' / 100 + y' / 400.

Fixpoint days_before_month_go (y : Z) (months : list Z) : Z :=
  match months with
  | [] => 0
  | m :: ms => days_in_month y m + days_before_month_go y ms
  end.

Definition days_before_month (y m : Z) : Z :=
  days_before_month_go y (map Z.of_nat (seq 1 (Z.to_nat (m - 1)))).

Definition toordinal (dt : datetime) : Z :=
  days_before_year (year dt) + days_before_month (year dt) (month dt) + day dt.

(** [(a - b).days]: whole days, rounded towards minus infinity.  [b] is
    always a midnight here. *)
Definition days_between (a b : datetime) : Z :=
  let secs := (toordinal a - toordinal b) * 86400
              + (hour a - hour b) * 3600 + (minute a - minute b) * 60
              + (second a - second b) in
  secs / 86400.

End Datetime.

(** ** Python [float]: binary64 with round-to-nearest-even

    A finite float is [(-1)^neg * m * 2^e] with [0 <= m < 2^53] and
    [-1074 <= e <= 971]; it is normalised when [2^52 <= m] or [e = -1074].
    Every operation returns the float nearest to the exact result, ties
    going to the even mantissa. *)

Module Float64.

Local Open Scope Z_scope.

Inductive float : Type :=
  | Finite (neg : bool) (m e : Z)
  | Infinity (neg : bool)
  | NaN.

Definition emin : Z := -1074.
Definition emax : Z := 971.

(** The integer nearest to [n / d], ties to even ([0 <= n], [0 < d]). *)
Definition round_half_even (n d : Z) : Z :=
  let q := n / d in
  let r := n mod d in
  if 2 * r <? d then q
  else if d <? 2 * r then q + 1
  else if Z.even q then q else q + 1.

(** [p / q < 2^k] *)
Definition below_pow2 (p q k : Z) : bool :=
  if 0 <=? k then p <? q * 2 ^ k else p * 2 ^ (- k) <? q.

(** Mantissa and exponent of the float nearest to [p / q]
    ([0 <= p], [0 < q]); the exponent exceeds [emax] on overflow. *)
Definition nearest (p q : Z) : Z * Z :=
  if p =? 0 then (0, emin)
  else
    let e0 := Z.log2 p - Z.log2 q - 52 in
    let e1 := if below_pow2 p q (e0 + 52) then e0 - 1 else e0 in
    let e := Z.max e1 emin in
    let m := if e <? 0 then round_half_even (p * 2 ^ (- e)) q
             else round_half_even p (q * 2 ^ e) in
    if m =? 2 ^ 53 then (2 ^ 52, e + 1) else (m, e).

(** [float(n)] for a Python integer *)
Definition of_int (n : Z) : result float :=
  let '(m, e) := nearest (Z.abs n) 1 in
  if emax <? e then Raise OverflowError else Ok (Finite (n <? 0) m e).

(** [a / b] on Python integers: the correctly rounded quotient. *)
Definition truediv (a b : Z) : result float :=
  if b =? 0 then Raise ZeroDivisionError
  else
    let '(m, e) := nearest (Z.abs a) (Z.abs b) in
    if emax <? e then Raise OverflowError
    else Ok (Finite (xorb (a <? 0) (b <? 0)) m e).

(** [x * y] on floats *)
Definition mul (x y : float) : float :=
  match x, y with
  | NaN, _ | _, NaN => NaN
  | Infinity n1, Infinity n2 => Infinity (xorb n1 n2)
  | Infinity n1, Finite n2 m _ | Finite n1 m _, Infinity n2 =>
      if m =? 0 then NaN else Infinity (xorb n1 n2)
  | Finite n1 m1 e1, Finite n2 m2 e2 =>
      let s := e1 + e2 in
      let '(m, e) := if 0 <=? s then nearest (m1 * m2 * 2 ^ s) 1
                     else nearest (m1 * m2) (2 ^ (- s)) in
      if emax <? e then Infinity (xorb n1 n2) else Finite (xorb n1 n2) m e
  end.

(** [x * k] for a float [x] and a Python integer [k] *)
Definition mul_int (x : float) (k : Z) : result float :=
  match of_int k with
  | Ok y => Ok (mul x y)
  | Raise e => Raise e
  end.

(** [f"{x:.1f}"]: the decimal with one fractional digit nearest to the
    exact value of [x], ties to even. *)
Definition format_1f (x : float) : string :=
  match x with
  | NaN => "nan"
  | Infinity neg => if neg then "-inf" else "inf"
  | Finite neg m e =>
      let tenths := if 0 <=? e then m * 2 ^ e * 10
                    else round_half_even (m * 10) (2 ^ (- e)) in
      (if neg then "-" else "") +:+ Str.of_nonneg (tenths / 10) +:+ "." +:+
      String (Str.digit_char (tenths mod 10)) EmptyString
  end.

End Float64.

(** ** The regular expression [\b(i'm|i am|me|my)\b] *)

Module Re.

Definition head (s : string) : option ascii :=
  match s with
  | EmptyString => None
  | String c _ => Some c
  end.

Fixpoint drop (n : nat) (s : string) : string :=
  match n, s with
  | O, _ => s
  | S _, EmptyString => EmptyString
  | S n', String _ s' => drop n' s'
  end.

(** the character a literal ends with, [prev] for the empty literal *)
Fixpoint last_char (prev : option ascii) (lit : string) : option ascii :=
  match lit with
  | EmptyString => prev
  | String c lit' => last_char (Some c) lit'
  end.

Definition is_word_at (c : option ascii) : bool :=
  match c with
  | Some a => Str.is_word a
  | None => false
  end.

(** [\b] between [prev] and [next]; the ends of the text count as
    non-word characters. *)
Definition boundary (prev next : option ascii) : bool :=
  xorb (is_word_at prev) (is_word_at next).

(** one alternative followed by the closing [\b], at the start of [s] *)
Definition alt_then_boundary (prev : option ascii) (s lit : string) : bool :=
  Str.startswith lit s &&
  boundary (last_char prev lit) (head (drop (String.length lit) s)).

(** [\b(l1|...|ln)\b] matched at the start of [s], [prev] being the
    character before *)
Definition match_here (alts : list string) (prev : option ascii) (s : string)
  : bool :=
  boundary prev (head s) && existsb (alt_then_boundary prev s) alts.

(** [re.search]: a match at some position *)
Fixpoint search_from (alts : list string) (prev : option ascii) (s : string)
  : bool :=
  match_here alts prev s ||
  match s with
  | EmptyString => false
  | String c s' => search_from alts (Some c) s'
  end.

Definition search_whole_word (alts : list string) (s : string) : bool :=
  search_from alts None s.

End Re.

(** ** The records of the script *)

Definition nl : string := String "010"%char EmptyString.

Module Comment.
Record t : Type := mk {
  body : string;
  subreddit : string;
  created_utc : string;
  score : Z;
  permalink : string
}.
End Comment.

Module Post.
(** [selftext] is read with [post.get('selftext', '')], hence optional. *)
Record t : Type := mk {
  title : string;
  selftext : option string;
  subreddit : string;
  created_utc : string;
  score : Z;
  permalink : string;
  is_self : bool;
  url : string
}.
End Post.

Record user_info : Type := mk_user_info {
  username : string;
  created_utc : string;
  comment_karma : Z;
  link_karma : Z;
  is_mod : bool;
  is_gold : bool;
  comments : list Comment.t;
  posts : list Post.t
}.

(** The values stored under [basic_info]. *)
Inductive pyval : Type :=
  | VStr (s : string)
  | VInt (n : Z)
  | VBool (b : bool).

(** [f"{value}"] *)
Definition format_val (v : pyval) : string :=
  match v with
  | VStr s => s
  | VInt n => Str.of_Z n
  | VBool b => Str.of_bool b
  end.

(** The persona dictionary.  [top_interests] and [top_subreddits] are the
    two keys added once the loops are done; they are empty until then and
    nothing reads them before. *)
Record persona : Type := mk_persona {
  basic_info : list (string * pyval);
  interests : ODict.t (list string);
  personality_traits : ODict.t (list string);
  frequent_subreddits : ODict.t Z;
  activity_patterns : ODict.t Z;
  language_style : gmap string Z;
  top_interests : list (string * list string);
  top_subreddits : list (string * Z)
}.

Definition set_interests (f : ODict.t (list string) -> ODict.t (list string))
  (p : persona) : persona :=
  mk_persona (basic_info p) (f (interests p)) (personality_traits p)
    (frequent_subreddits p) (activity_patterns p) (language_style p)
    (top_interests p) (top_subreddits p).

Definition set_personality_traits
  (f : ODict.t (list string) -> ODict.t (list string)) (p : persona) : persona :=
  mk_persona (basic_info p) (interests p) (f (personality_traits p))
    (frequent_subreddits p) (activity_patterns p) (language_style p)
    (top_interests p) (top_subreddits p).

Definition set_frequent_subreddits (f : ODict.t Z -> ODict.t Z) (p : persona)
  : persona :=
  mk_persona (basic_info p) (interests p) (personality_traits p)
    (f (frequent_subreddits p)) (activity_patterns p) (language_style p)
    (top_interests p) (top_subreddits p).

Definition set_activity_patterns (f : ODict.t Z -> ODict.t Z) (p : persona)
  : persona :=
  mk_persona (basic_info p) (interests p) (personality_traits p)
    (frequent_subreddits p) (f (activity_patterns p)) (language_style p)
    (top_interests p) (top_subreddits p).

Definition set_language_style (f : gmap string Z -> gmap string Z) (p : persona)
  : persona :=
  mk_persona (basic_info p) (interests p) (personality_traits p)
    (frequent_subreddits p) (activity_patterns p) (f (language_style p))
    (top_interests p) (top_subreddits p).

Definition set_top_interests (v : list (string * list string)) (p : persona)
  : persona :=
  mk_persona (basic_info p) (interests p) (personality_traits p)
    (frequent_subreddits p) (activity_patterns p) (language_style p)
    v (top_subreddits p).

Definition set_top_subreddits (v : list (string * Z)) (p : persona) : persona :=
  mk_persona (basic_info p) (interests p) (personality_traits p)
    (frequent_subreddits p) (activity_patterns p) (language_style p)
    (top_interests p) v.

(** *** The statements that mutate the persona *)

Definition when {S} (b : bool) (m : ST S unit) : ST S unit :=
  if b then m else ret tt.

(** [persona['interests'][category].append(url)] *)
Definition append_interest (category url : string) : ST persona unit :=
  modify (set_interests (ODict.update [] (fun l => l ++ [url]) category)).

(** [persona['personality_traits'][category].append(url)] *)
Definition append_trait (category url : string) : ST persona unit :=
  modify (set_personality_traits (ODict.update [] (fun l => l ++ [url]) category)).

(** [persona['frequent_subreddits'][name] += 1] *)
Definition count_subreddit (name : string) : ST persona unit :=
  modify (set_frequent_subreddits (ODict.update 0%Z Z.succ name)).

(** [persona['activity_patterns'][bucket] += 1] *)
Definition count_activity (bucket : string) : ST persona unit :=
  modify (set_activity_patterns (ODict.update 0%Z Z.succ bucket)).

(** [persona['language_style'][key]] *)
Definition style_get (key : string) (m : gmap string Z) : Z :=
  default 0%Z (m !! key).

(** [persona['language_style'][key] += n] *)
Definition style_add (key : string) (n : Z) : ST persona unit :=
  modify (set_language_style (fun m => <[key := (style_get key m + n)%Z]> m)).

(** ** The fetcher: [extract_user_info]

    The API client is outside the script.  A request for a user name
    either raises (unknown account, network error, rate limit), with the
    text of the exception, or yields the account with its two listings,
    newest first.  Each [created] field stands for the value of
    [datetime.fromtimestamp(x.created_utc)]. *)

Module Praw.

Record comment : Type := mk_comment {
  body : string;
  subreddit : string;
  created : Datetime.datetime;
  score : Z;
  permalink : string
}.

Record submission : Type := mk_submission {
  s_title : string;
  s_selftext : string;
  s_subreddit : string;
  s_created : Datetime.datetime;
  s_score : Z;
  s_permalink : string;
  s_is_self : bool;
  s_url : string
}.

Record redditor : Type := mk_redditor {
  r_created : Datetime.datetime;
  r_comment_karma : Z;
  r_link_karma : Z;
  r_is_mod : bool;
  r_is_gold : bool;
  comments_new : list comment;
  submissions_new : list submission
}.

Inductive response : Type :=
  | Raised (message : string)
  | Found (user : redditor).

(** [listing.new(limit=n)] *)
Definition new {A} (limit : nat) (listing : list A) : list A :=
  take limit listing.

End Praw.

(** What the operator sees and what the run leaves behind, in order. *)
Inductive event : Type :=
  | Print (text : string)
  | Input (prompt : string)
  | Fetch (name : string)
  | WriteFile (filename contents : string).

Definition emit (e : event) : ST (list event) unit :=
  modify (fun trace => trace ++ [e]).

Definition extract_comment (comment : Praw.comment) : Comment.t :=
  Comment.mk (Praw.body comment) (Praw.subreddit comment)
    (Datetime.strftime_ymd (Praw.created comment)) (Praw.score comment)
    ("https://reddit.com" +:+ Praw.permalink comment).

Definition extract_post (submission : Praw.submission) : Post.t :=
  Post.mk (Praw.s_title submission) (Some (Praw.s_selftext submission))
    (Praw.s_subreddit submission)
    (Datetime.strftime_ymd (Praw.s_created submission))
    (Praw.s_score submission)
    ("https://reddit.com" +:+ Praw.s_permalink submission)
    (Praw.s_is_self submission) (Praw.s_url submission).

(** [extract_user_info]: everything the [try] block raises is caught,
    printed, and turned into [None]. *)
Definition extract_user_info (reddit : string -> Praw.response) (name : string)
  : ST (list event) (option user_info) :=
  (emit (Fetch name) ;;
   match reddit name with
   | Praw.Found user =>
       ret (Some (mk_user_info name
         (Datetime.strftime_ymd (Praw.r_created user))
         (Praw.r_comment_karma user) (Praw.r_link_karma user)
         (Praw.r_is_mod user) (Praw.r_is_gold user)
         (map extract_comment (Praw.new 100 (Praw.comments_new user)))
         (map extract_post (Praw.new 50 (Praw.submissions_new user)))))
   | Praw.Raised e =>
       (emit (Print ("Error fetching user data: " +:+ e)) ;;
        ret None)
   end)%st.

(** ** The analysis *)

(** [_calculate_account_age]; [now] is the value of [datetime.now()]. *)
Definition _calculate_account_age (now : Datetime.datetime)
  (created_date : string) : result string :=
  match Datetime.strptime_ymd created_date with
  | Raise e => Raise e
  | Ok created =>
      let days := Datetime.days_between now created in
      let years := (days / 365)%Z in
      let months := ((days mod 365) / 30)%Z in
      Ok (Str.of_Z years +:+ " years, " +:+ Str.of_Z months +:+ " months")
  end.

Definition self_reference_words : list string := ["i'm"; "i am"; "me"; "my"].

(** [len(text.split())] *)
Definition word_count (text : string) : Z :=
  Z.of_nat (length (Str.split_ws text)).

Definition _analyze_comment (comment : Comment.t) : ST persona unit :=
  let text := Str.lower (Comment.body comment) in
  (when (Str.any_in ["python"; "javascript"; "java"; "c++"] text)
     (append_interest "programming" (Comment.permalink comment)) ;;
   when (Str.any_in ["game"; "gaming"; "playstation"; "xbox"] text)
     (append_interest "gaming" (Comment.permalink comment)) ;;
   when (Str.any_in ["movie"; "film"; "netflix"; "hbo"] text)
     (append_interest "movies" (Comment.permalink comment)) ;;
   when (Str.any_in ["i think"; "in my opinion"] text)
     (append_trait "opinionated" (Comment.permalink comment)) ;;
   when (Str.contains "?" text)
     (append_trait "inquisitive" (Comment.permalink comment)) ;;
   when (Str.any_in ["thanks"; "thank you"; "appreciate"] text)
     (append_trait "polite" (Comment.permalink comment)) ;;
   style_add "comment_length" (word_count text) ;;
   when (Str.contains "!" text)
     (style_add "exclamation_use" 1) ;;
   when (Re.search_whole_word self_reference_words text)
     (style_add "self_reference" 1))%st.

Definition _analyze_post (post : Post.t) : ST persona unit :=
  let text :=
    Str.lower (Post.title post +:+ " " +:+ default "" (Post.selftext post)) in
  (when (Str.any_in ["help"; "advice"; "suggestion"] text)
     (append_interest "help_seeking" (Post.permalink post)) ;;
   when (Str.any_in ["discussion"; "debate"; "opinion"] text)
     (append_interest "discussions" (Post.permalink post)) ;;
   when (Str.contains "?" (Post.title post))
     (append_trait "inquisitive" (Post.permalink post)))%st.

(** The [if]/[elif] chain of [_analyze_activity_time]. *)
Definition bucket_of_hour (hour : Z) : string :=
  if (5 <=? hour)%Z && (hour <? 12)%Z then "morning"
  else if (12 <=? hour)%Z && (hour <? 17)%Z then "afternoon"
  else if (17 <=? hour)%Z && (hour <? 22)%Z then "evening"
  else "night".

Definition _analyze_activity_time (timestamp : string) : ST persona unit :=
  (dt <- lift (Datetime.strptime_ymd timestamp) ;;
   let hour := Datetime.hour dt in
   count_activity (bucket_of_hour hour))%st.

(** [sorted(l, key=key, reverse=True)]: the sort is stable, so the result
    is the one of an insertion sort that puts an element in front of the
    first one whose key is not larger. *)
Fixpoint insert_desc {A} (key : A -> Z) (x : A) (l : list A) : list A :=
  match l with
  | [] => [x]
  | y :: l' => if (key x <? key y)%Z then y :: insert_desc key x l' else x :: l
  end.

Definition sorted_desc {A} (key : A -> Z) (l : list A) : list A :=
  foldr (insert_desc key) [] l.

(** [sorted(d.items(), key=key, reverse=True)[:5]] *)
Definition top5 {A} (key : A -> Z) (items : list A) : list A :=
  take 5 (sorted_desc key items).

Definition citation_count (item : string * list string) : Z :=
  Z.of_nat (length item.2).

Definition interaction_count (item : string * Z) : Z := item.2.

(** The body of the first loop of [analyze_persona]. *)
Definition analyze_comment_item (comment : Comment.t) : ST persona unit :=
  (_analyze_comment comment ;;
   count_subreddit (Comment.subreddit comment) ;;
   _analyze_activity_time (Comment.created_utc comment))%st.

(** The body of the second loop. *)
Definition analyze_post_item (post : Post.t) : ST persona unit :=
  (_analyze_post post ;;
   count_subreddit (Post.subreddit post) ;;
   _analyze_activity_time (Post.created_utc post))%st.

Definition new_persona (info : list (string * pyval)) : persona :=
  mk_persona info ODict.empty ODict.empty ODict.empty ODict.empty ∅ [] [].

Definition analyze_loops (info : user_info) : ST persona unit :=
  (for_each (comments info) analyze_comment_item ;;
   for_each (posts info) analyze_post_item ;;
   p <- get ;;
   modify (set_top_interests (top5 citation_count (interests p))) ;;
   modify (set_top_subreddits (top5 interaction_count (frequent_subreddits p))))%st.

Definition analyze_persona (now : Datetime.datetime) (info : user_info)
  : result persona :=
  match _calculate_account_age now (created_utc info) with
  | Raise e => Raise e
  | Ok age =>
      let persona0 := new_persona
        [("Username", VStr (username info));
         ("Account Age", VStr age);
         ("Comment Karma", VInt (comment_karma info));
         ("Post Karma", VInt (link_karma info));
         ("Premium Member", VBool (is_gold info))] in
      match analyze_loops info persona0 with
      | (p, Ok _) => Ok p
      | (_, Raise e) => Raise e
      end
  end.

(** ** The renderer: [generate_persona_file]

    The store is the text written to the file so far. *)

Definition write (text : string) : ST string unit :=
  modify (fun file => file +:+ text).

(** [sum(d.values())] *)
Definition sum_values (d : ODict.t Z) : Z :=
  foldr Z.add 0%Z (ODict.values d).

Definition write_citations (limit : nat) (citations : list string)
  : ST string unit :=
  for_each (take limit citations)
    (fun url => write ("  - Citation: " +:+ url +:+ nl)).

Definition write_category (limit : nat) (item : string * list string)
  : ST string unit :=
  let '(name, citations) := item in
  (write ("- " +:+ Str.capitalize name +:+ " (based on "
          +:+ Str.of_Z (Z.of_nat (length citations)) +:+ " comments/posts)" +:+ nl) ;;
   write_citations limit citations)%st.

Definition write_basic_information (p : persona) : ST string unit :=
  (write ("== BASIC INFORMATION ==" +:+ nl) ;;
   for_each (basic_info p)
     (fun '(key, value) => write (key +:+ ": " +:+ format_val value +:+ nl)) ;;
   write nl)%st.

Definition write_top_interests (p : persona) : ST string unit :=
  (write ("== TOP INTERESTS ==" +:+ nl) ;;
   for_each (top_interests p) (write_category 3) ;;
   write nl)%st.

Definition write_personality_traits (p : persona) : ST string unit :=
  (write ("== PERSONALITY TRAITS ==" +:+ nl) ;;
   for_each (personality_traits p) (write_category 2) ;;
   write nl)%st.

Definition write_activity_line (total_activity : Z) (item : string * Z)
  : ST string unit :=
  let '(time, count) := item in
  (ratio <- lift (Float64.truediv count total_activity) ;;
   percentage <- lift (Float64.mul_int ratio 100) ;;
   write ("- Most active during " +:+ time +:+ ": "
          +:+ Float64.format_1f percentage +:+ "% of activity" +:+ nl))%st.

Definition write_activity_patterns (p : persona) : ST string unit :=
  (write ("== ACTIVITY PATTERNS ==" +:+ nl) ;;
   let total_activity := sum_values (activity_patterns p) in
   for_each (activity_patterns p) (write_activity_line total_activity) ;;
   write nl)%st.

Definition write_language_style (p : persona) : ST string unit :=
  (write ("== LANGUAGE STYLE ==" +:+ nl) ;;
   (if (0 <? style_get "comment_length" (language_style p))%Z then
      avg_length <- lift (Float64.truediv
                            (style_get "comment_length" (language_style p))
                            (ODict.len (personality_traits p)
                             + ODict.len (interests p))%Z) ;;
      write ("- Average comment length: " +:+ Float64.format_1f avg_length
             +:+ " words" +:+ nl)
    else ret tt) ;;
   when (0 <? style_get "exclamation_use" (language_style p))%Z
     (write ("- Frequently uses exclamation marks" +:+ nl)) ;;
   when (0 <? style_get "self_reference" (language_style p))%Z
     (write ("- Often uses self-referential language (I, me, my)" +:+ nl)) ;;
   write nl)%st.

Definition write_frequent_subreddits (p : persona) : ST string unit :=
  (write ("== FREQUENTLY VISITED SUBREDDITS ==" +:+ nl) ;;
   for_each (top_subreddits p)
     (fun '(name, count) =>
        write ("- r/" +:+ name +:+ ": " +:+ Str.of_Z count +:+ " interactions" +:+ nl)))%st.

Definition generate_persona_file (p : persona) : ST string unit :=
  (write ("=== REDDIT USER PERSONA ===" +:+ nl +:+ nl) ;;
   write_basic_information p ;;
   write_top_interests p ;;
   write_personality_traits p ;;
   write_activity_patterns p ;;
   write_language_style p ;;
   write_frequent_subreddits p ;;
   write (nl +:+ "=== END OF PERSONA ==="))%st.

(** ** The driver: [main]

    [reddit] is the API client held by the generator, [now] the clock,
    [typed] the line the operator enters.  The store is the trace of
    events.  This is the run once the generator is constructed, in a
    file system that takes the report file: neither the reading of the
    configuration nor [open] raises here.  The user
    information, when there is one, is a dictionary with keys, so the
    test [if not user_info] is the test for [None]. *)

Definition parse_username (typed : string) : string :=
  let profile_url := Str.strip Str.is_space typed in
  Str.strip Str.is_slash (Str.last_piece (Str.split "/user/" profile_url)).

Definition report_filename (name : string) : string :=
  "reddit_persona_" +:+ name +:+ ".txt".

Definition main (reddit : string -> Praw.response) (now : Datetime.datetime)
  (typed : string) : ST (list event) unit :=
  (emit (Print "Reddit User Persona Generator") ;;
   emit (Print ("-----------------------------" +:+ nl)) ;;
   emit (Input "Enter Reddit profile URL (e.g., https://www.reddit.com/user/username/): ") ;;
   let name := parse_username typed in
   if decide (name = "") then
     emit (Print "Invalid Reddit profile URL. Please include the username.")
   else
     emit (Print (nl +:+ "Fetching data for user: " +:+ name +:+ "...")) ;;
     info <- extract_user_info reddit name ;;
     match info with
     | None =>
         emit (Print "Failed to fetch user data. Please check the username and try again.")
     | Some info =>
         emit (Print "Analyzing user data and generating persona...") ;;
         p <- lift (analyze_persona now info) ;;
         let filename := report_filename name in
         let '(contents, outcome) := generate_persona_file p "" in
         emit (WriteFile filename contents) ;;
         lift outcome ;;
         emit (Print (nl +:+ "Persona generated successfully! Saved to: " +:+ filename)) ;;
         emit (Print (nl +:+ "Note: Due to API limitations, this analysis is based on the user's most recent 100 comments and 50 posts."))
     end)%st.

(** * The vocabulary of the properties *)

(** ** Reading a trace *)

Definition is_fetch (e : event) : bool :=
  match e with
  | Fetch _ => true
  | _ => false
  end.

Definition is_write (e : event) : bool :=
  match e with
  | WriteFile _ _ => true
  | _ => false
  end.

(** Was the API asked for anything?  Was a report file written? *)
Definition fetch_attempted (trace : list event) : bool := existsb is_fetch trace.

Definition file_written (trace : list event) : bool := existsb is_write trace.

(** The texts printed, and those printed once the fetch has started. *)
Fixpoint printed (trace : list event) : list string :=
  match trace with
  | [] => []
  | Print text :: trace' => text :: printed trace'
  | _ :: trace' => printed trace'
  end.

Fixpoint printed_after_fetch (trace : list event) : list string :=
  match trace with
  | [] => []
  | Fetch _ :: trace' => printed trace'
  | _ :: trace' => printed_after_fetch trace'
  end.

(** The three events every run starts with. *)
Definition greeting : list event :=
  [Print "Reddit User Persona Generator";
   Print ("-----------------------------" +:+ nl);
   Input "Enter Reddit profile URL (e.g., https://www.reddit.com/user/username/): "].


(** ** Reading a persona *)

(** [d[category]] and [d[name]] as the report reads them *)
Definition cites (category : string) (d : ODict.t (list string)) : list string :=
  ODict.get_default [] category d.

Definition interactions (name : string) (d : ODict.t Z) : Z :=
  ODict.get_default 0%Z name d.

(** a citation list that gained at most the one permalink *)
Definition grew_by_at_most (url : string) (before after : list string) : Prop :=
  after = before \/ after = before ++ [url].

(** a citation that is made or not *)
Definition cite_if (b : bool) (category url : string) (d : ODict.t (list string))
  : ODict.t (list string) :=
  if b then ODict.update [] (fun l => l ++ [url]) category d else d.

Definition sum_over {A} (f : A -> Z) (l : list A) : Z :=
  foldr (fun x acc => (f x + acc)%Z) 0%Z l.

(** A text of ASCII characters ([str.isascii]), on which the [str]
    methods and the regular expression of the model are Python's; an
    account whose comment bodies are such texts. *)
Definition ascii_text (s : string) : bool :=
  forallb (fun c => (Str.code c <? 128)%N) (list_ascii_of_string s).

Definition ascii_comments (info : user_info) : bool :=
  forallb (fun c => ascii_text (Comment.body c)) (comments info).

(** The text each analyser works on. *)
Definition comment_text (comment : Comment.t) : string :=
  Str.lower (Comment.body comment).

Definition post_text (post : Post.t) : string :=
  Str.lower (Post.title post +:+ " " +:+ default "" (Post.selftext post)).








(** ** Reading a ranking *)

(** larger keys first *)
Definition key_ge {A} (key : A -> Z) (x y : A) : Prop := (key y <= key x)%Z.

(** the items with key [k], in the order of the list *)
Definition with_key {A} (key : A -> Z) (k : Z) (l : list A) : list A :=
  List.filter (fun x => (key x =? k)%Z) l.

(** The interest counts of the specification's example: a and b cited
    three times, c five times, met in the order a, b, c. *)
Definition example_interests : ODict.t (list string) :=
  [("a", ["u1"; "u2"; "u3"]);
   ("b", ["u4"; "u5"; "u6"]);
   ("c", ["u7"; "u8"; "u9"; "u10"; "u11"])].

Definition example_subreddits : ODict.t Z :=
  [("a", 3%Z); ("b", 3%Z); ("c", 5%Z)].

(** ** Reading the activity section *)

(** [1.0] and [100.0] *)
Definition float_one : Float64.float := Float64.Finite false (2 ^ 52) (-52).

Definition float_hundred : Float64.float :=
  Float64.Finite false (100 * 2 ^ 46) (-46).

(** The activity dictionary after [n] items: empty, or the one key. *)
Definition night_only (n : Z) : ODict.t Z :=
  if decide (n = 0%Z) then [] else [("night", n)].

(** The section written for a night-only dictionary. *)
Definition activity_section (n : Z) : string :=
  "== ACTIVITY PATTERNS ==" +:+ nl +:+
  (if decide (n = 0%Z) then ""
   else "- Most active during night: 100.0% of activity" +:+ nl) +:+ nl.

(** ** Reading the renderer *)

(** A writer that only appends a text of its own to the file and
    completes, and one that appends and may then raise. *)
Definition only_appends (m : ST string unit) : Prop :=
  exists out, forall file, m file = (file +:+ out, Ok tt).

Definition appends (m : ST string unit) : Prop :=
  exists out r, forall file, m file = (file +:+ out, r).

(** ** Dates *)

(** A date the fetcher can write, with a year of four digits. *)
Definition printable (dt : Datetime.datetime) : bool :=
  Datetime.valid dt && (1000 <=? Datetime.year dt)%Z.

(** the timestamp of the item parses *)
Definition comment_dated (comment : Comment.t) : Prop :=
  exists dt, Datetime.strptime_ymd (Comment.created_utc comment) = Ok dt.

Definition post_dated (post : Post.t) : Prop :=
  exists dt, Datetime.strptime_ymd (Post.created_utc post) = Ok dt.

(** An account whose dates the fetcher can write. *)
Definition well_dated (user : Praw.redditor) : Prop :=
  printable (Praw.r_created user) = true /\
  List.Forall (fun c => printable (Praw.created c) = true) (Praw.comments_new user) /\
  List.Forall (fun s => printable (Praw.s_created s) = true) (Praw.submissions_new user).

(** ** Sample data for the concrete runs *)

Definition sample_now : Datetime.datetime :=
  Datetime.mk_datetime 2025 7 14 10 30 0.

Definition sample_day : Datetime.datetime :=
  Datetime.mk_datetime 2024 3 9 14 5 6.

(** A comment that matches no category, one that matches one, one that
    matches several; a post with an exclamation mark. *)
Definition plain_comment : Comment.t :=
  Comment.mk "hello world" "casual" "2024-03-09" 1 "https://reddit.com/r/casual/1".

Definition gaming_comment : Comment.t :=
  Comment.mk "Nice game" "gaming" "2024-03-09" 1 "https://reddit.com/r/gaming/2".

Definition busy_comment : Comment.t :=
  Comment.mk "I think this game beats the movie, right? Thanks" "movies" "2024-03-09" 1
    "https://reddit.com/r/movies/3".

Definition shouting_post : Post.t :=
  Post.mk "Wow!" (Some "") "pics" "2024-03-09" 7 "https://reddit.com/r/pics/9"
    false "https://i.redd.it/9.png".

(** Accounts as [extract_user_info] delivers them: without activity, with
    one post only, with two comments and a post. *)
Definition empty_account : user_info :=
  mk_user_info "bob" "2020-01-15" 10 20 false false [] [].


Definition two_comments : user_info :=
  mk_user_info "bob" "2020-01-15" 10 20 false false
    [busy_comment; plain_comment] [shouting_post].

(** An API that knows nobody. *)
Definition unreachable_reddit (name : string) : Praw.response :=
  Praw.Raised "received 404 HTTP response".

(** An account with three comments and a post, written in the morning, in
    the afternoon and in the evening. *)
Definition sample_redditor : Praw.redditor :=
  Praw.mk_redditor (Datetime.mk_datetime 2020 1 15 3 4 5) 10 20 false true
    [Praw.mk_comment "I think Python is great! Thanks for the help" "learnpython"
       sample_day 5 "/r/learnpython/c1";
     Praw.mk_comment "my game? me too" "gaming"
       (Datetime.mk_datetime 2024 3 10 19 45 0) 2 "/r/gaming/c2";
     Praw.mk_comment "hello world" "casual"
       (Datetime.mk_datetime 2024 3 11 8 0 0) 1 "/r/casual/c3"]
    [Praw.mk_submission "Need advice: what laptop should I buy?" "" "laptops"
       sample_day 3 "/r/laptops/s1" true "https://reddit.com/r/laptops/s1"].

Definition sample_reddit (name : string) : Praw.response :=
  if decide (name = "bob") then Praw.Found sample_redditor
  else Praw.Raised "received 404 HTTP response".

(** What [extract_user_info] returns for [bob]. *)
Definition sample_info : user_info :=
  match extract_user_info sample_reddit "bob" [] with
  | (_, Ok (Some info)) => info
  | _ => empty_account
  end.

(** An account whose only activity is the comment "hello world", and what
    [extract_user_info] makes of it. *)
Definition hello_redditor : Praw.redditor :=
  Praw.mk_redditor (Datetime.mk_datetime 2020 1 15 3 4 5) 10 20 false false
    [Praw.mk_comment "hello world" "casual" sample_day 1 "/r/casual/1"] [].

Definition hello_reddit (name : string) : Praw.response :=
  Praw.Found hello_redditor.

Definition hello_account : user_info :=
  mk_user_info "bob" "2020-01-15" 10 20 false false [plain_comment] [].

(** * The vocabulary of the further properties *)

(** ** Outcomes *)

Definition is_ok {A} (r : result A) : bool :=
  match r with
  | Ok _ => true
  | Raise _ => false
  end.

(** the text is a date [strptime] accepts *)
Definition parses (timestamp : string) : bool :=
  is_ok (Datetime.strptime_ymd timestamp).

(** every timestamp of the user information parses *)
Definition all_dated (info : user_info) : bool :=
  parses (created_utc info) &&
  forallb (fun c => parses (Comment.created_utc c)) (comments info) &&
  forallb (fun po => parses (Post.created_utc po)) (posts info).

(** the time of day is one a [datetime] can hold *)
Definition valid_time (dt : Datetime.datetime) : bool :=
  (0 <=? Datetime.hour dt)%Z && (Datetime.hour dt <=? 23)%Z &&
  (0 <=? Datetime.minute dt)%Z && (Datetime.minute dt <=? 59)%Z &&
  (0 <=? Datetime.second dt)%Z && (Datetime.second dt <=? 59)%Z.

(** ** Counting and citing *)

(** 1 when the item is in the subreddit, 0 otherwise *)
Definition comment_in (name : string) (comment : Comment.t) : Z :=
  Z.b2z (bool_decide (Comment.subreddit comment = name)).

Definition post_in (name : string) (post : Post.t) : Z :=
  Z.b2z (bool_decide (Post.subreddit post = name)).

(** The keyword rules of the two analysers, as tables from category to
    trigger phrases. *)
Definition comment_interest_rules : list (string * list string) :=
  [("programming", ["python"; "javascript"; "java"; "c++"]);
   ("gaming", ["game"; "gaming"; "playstation"; "xbox"]);
   ("movies", ["movie"; "film"; "netflix"; "hbo"])].

Definition post_interest_rules : list (string * list string) :=
  [("help_seeking", ["help"; "advice"; "suggestion"]);
   ("discussions", ["discussion"; "debate"; "opinion"])].

Definition comment_trait_rules : list (string * list string) :=
  [("opinionated", ["i think"; "in my opinion"]);
   ("inquisitive", ["?"]);
   ("polite", ["thanks"; "thank you"; "appreciate"])].

(** the text triggers the category under the rules *)
Definition triggers (rules : list (string * list string)) (category text : string)
  : bool :=
  match ODict.get category rules with
  | Some phrases => Str.any_in phrases text
  | None => false
  end.

(** The permalinks of the comments, and of the posts, whose text triggers
    the category, in the order of the list. *)
Definition cited_comments (rules : list (string * list string))
  (category : string) (l : list Comment.t) : list string :=
  map Comment.permalink
    (List.filter (fun c => triggers rules category (comment_text c)) l).

Definition cited_posts (rules : list (string * list string))
  (category : string) (l : list Post.t) : list string :=
  map Post.permalink
    (List.filter (fun po => triggers rules category (post_text po)) l).

(** the permalinks of the posts with a question mark in the title, under
    the trait inquisitive *)
Definition questioning_posts (category : string) (l : list Post.t) : list string :=
  map Post.permalink
    (List.filter
       (fun po => bool_decide (category = "inquisitive")
                  && Str.contains "?" (Post.title po)) l).

Definition interest_names : list string :=
  ["programming"; "gaming"; "movies"; "help_seeking"; "discussions"].

Definition trait_names : list string := ["opinionated"; "inquisitive"; "polite"].

(** A dictionary of citations in good order: no key twice, keys among
    [names], no empty list. *)
Definition well_keyed (names : list string) (d : ODict.t (list string)) : Prop :=
  List.NoDup (ODict.keys d) /\
  incl (ODict.keys d) names /\
  List.Forall (fun l => l <> []) (ODict.values d).

(** ** Reading a trace, further *)

(** The names the API was asked for, and the files written, in order. *)
Fixpoint fetches (trace : list event) : list string :=
  match trace with
  | [] => []
  | Fetch name :: trace' => name :: fetches trace'
  | _ :: trace' => fetches trace'
  end.

Fixpoint writes (trace : list event) : list (string * string) :=
  match trace with
  | [] => []
  | WriteFile filename contents :: trace' => (filename, contents) :: writes trace'
  | _ :: trace' => writes trace'
  end.

(** a count the division can take *)
Definition moderate (n : Z) : Prop := (Z.abs n < 2 ^ 1023)%Z.

(** no slash in the text *)
Definition slashless (s : string) : bool :=
  negb (Str.contains "/" s).

(** the phrase is not empty and has no space in it *)
Definition one_word (w : string) : bool :=
  negb (String.eqb w "") && negb (Str.contains " " w).

(** ** The driver in its environment

    [main] above is the run once the generator is constructed, in a file
    system that takes the report.  [main_from_start] is the run from the
    first line of [main], in an environment that can refuse both:
    [RedditPersonaGenerator()] reads [praw.ini] and builds the API
    client, and raises when the file or one of its keys is missing;
    [open(filename, 'w', encoding='utf-8')], the first statement of
    [generate_persona_file], raises when the system does not take the
    name (a name with a slash and no such directory, a name too long).
    Writing to the file once it is open is taken to succeed. *)
Record environment : Type := mk_environment {
  generator : result (string -> Praw.response);
  open_w : string -> result unit
}.

(** [generate_persona_file(persona, filename)] from its [open] on: when
    [open] raises nothing is written; when the renderer raises, the file
    holds what was written until then. *)
Definition generate_persona_file_at (env : environment) (p : persona)
  (filename : string) : ST (list event) unit :=
  (lift (open_w env filename) ;;
   let '(contents, outcome) := generate_persona_file p "" in
   emit (WriteFile filename contents) ;;
   lift outcome)%st.

Definition main_from_start (env : environment) (now : Datetime.datetime)
  (typed : string) : ST (list event) unit :=
  (emit (Print "Reddit User Persona Generator") ;;
   emit (Print ("-----------------------------" +:+ nl)) ;;
   reddit <- lift (generator env) ;;
   emit (Input "Enter Reddit profile URL (e.g., https://www.reddit.com/user/username/): ") ;;
   let name := parse_username typed in
   if decide (name = "") then
     emit (Print "Invalid Reddit profile URL. Please include the username.")
   else
     emit (Print (nl +:+ "Fetching data for user: " +:+ name +:+ "...")) ;;
     info <- extract_user_info reddit name ;;
     match info with
     | None =>
         emit (Print "Failed to fetch user data. Please check the username and try again.")
     | Some info =>
         emit (Print "Analyzing user data and generating persona...") ;;
         p <- lift (analyze_persona now info) ;;
         let filename := report_filename name in
         generate_persona_file_at env p filename ;;
         emit (Print (nl +:+ "Persona generated successfully! Saved to: " +:+ filename)) ;;
         emit (Print (nl +:+ "Note: Due to API limitations, this analysis is based on the user's most recent 100 comments and 50 posts."))
     end)%st.

(** The two events before the generator is constructed. *)
Definition banner : list event :=
  [Print "Reddit User Persona Generator";
   Print ("-----------------------------" +:+ nl)].

(** An account whose comment bodies are ASCII texts, as the API delivers
    it. *)
Definition ascii_bodies (user : Praw.redditor) : bool :=
  forallb (fun c => ascii_text (Praw.body c)) (Praw.comments_new user).

(** A file system that takes a name without a slash, and an environment
    with it where the configuration is in place. *)
Definition flat_directory (filename : string) : result unit :=
  if Str.contains "/" filename then Raise (LibraryError "FileNotFoundError")
  else Ok tt.

Definition sample_environment : environment :=
  mk_environment (Ok sample_reddit) flat_directory.

(** The same account under every name, and the environment with it. *)
Definition everybody_is_bob (name : string) : Praw.response :=
  Praw.Found sample_redditor.

Definition nested_environment : environment :=
  mk_environment (Ok everybody_is_bob) flat_directory.

(** * Properties *)

(** ** Texts *)

Lemma append_cons (c : ascii) (s t : string) : String c s +:+ t = String c (s +:+ t).
Proof. reflexivity. Qed.

Lemma append_nil (t : string) : "" +:+ t = t.
Proof. reflexivity. Qed.

Lemma append_assoc (a b c : string) : (a +:+ b) +:+ c = a +:+ (b +:+ c).
Proof.
  induction a as [|x a IH]; [reflexivity|].
  change (String x ((a +:+ b) +:+ c) = String x (a +:+ (b +:+ c))).
  f_equal. exact IH.
Qed.

Lemma append_empty_r (s : string) : s +:+ "" = s.
Proof.
  induction s as [|c s IH]; [reflexivity|].
  change (String c (s +:+ "") = String c s). f_equal. exact IH.
Qed.

(** ** The monad and the loops *)

(** A loop that completes has folded an observation [obs] of the store
    along the items, when each completed step changes the observation by
    [delta]. *)
Lemma for_each_observe {S A X} (body : A -> ST S unit) (obs : S -> X)
  (delta : A -> X -> X) :
  (forall x s s', body x s = (s', Ok tt) -> obs s' = delta x (obs s)) ->
  forall l s s', for_each l body s = (s', Ok tt) ->
    obs s' = fold_left (fun acc x => delta x acc) l (obs s).
Proof.
  intros Hbody. induction l as [|x l IH]; intros s s' Hrun; simpl in *.
  - unfold ret in Hrun. congruence.
  - unfold bind in Hrun. destruct (body x s) as [s1 [[]|e]] eqn:Hx; [|discriminate].
    rewrite (IH _ _ Hrun). f_equal. eauto.
Qed.

(** ** Ordered dictionaries *)

Lemma odict_get_update_eq {V} (dflt : V) (f : V -> V) (k : string) (d : ODict.t V) :
  ODict.get k (ODict.update dflt f k d) = Some (f (ODict.get_default dflt k d)).
Proof.
  unfold ODict.get_default.
  induction d as [|[k' v] d IH]; simpl.
  - rewrite decide_True by reflexivity. reflexivity.
  - destruct (decide (k' = k)) as [->|Hne]; simpl.
    + rewrite decide_True by reflexivity. reflexivity.
    + rewrite decide_False by assumption. apply IH.
Qed.

Lemma odict_get_update_ne {V} (dflt : V) (f : V -> V) (k k' : string) (d : ODict.t V) :
  k <> k' -> ODict.get k' (ODict.update dflt f k d) = ODict.get k' d.
Proof.
  intros Hne. induction d as [|[k0 v] d IH]; simpl.
  - rewrite decide_False by assumption. reflexivity.
  - destruct (decide (k0 = k)) as [->|Hne0]; simpl.
    + rewrite !decide_False by assumption. reflexivity.
    + destruct (decide (k0 = k')); [reflexivity | apply IH].
Qed.

Lemma odict_get_default_update {V} (dflt : V) (f : V -> V) (k k' : string)
  (d : ODict.t V) :
  ODict.get_default dflt k' (ODict.update dflt f k d) =
  if decide (k = k') then f (ODict.get_default dflt k d)
  else ODict.get_default dflt k' d.
Proof.
  destruct (decide (k = k')) as [<-|Hne].
  - unfold ODict.get_default at 1. rewrite odict_get_update_eq. reflexivity.
  - unfold ODict.get_default. rewrite odict_get_update_ne by assumption. reflexivity.
Qed.

(** A write keeps the keys in the order of their first insertion: a key
    already there stays where it is, a new one goes to the end. *)
Lemma odict_keys_update {V} (dflt : V) (f : V -> V) (k : string) (d : ODict.t V) :
  ODict.keys (ODict.update dflt f k d) =
  match ODict.get k d with
  | Some _ => ODict.keys d
  | None => ODict.keys d ++ [k]
  end.
Proof.
  unfold ODict.keys. induction d as [|[k' v] d IH]; simpl.
  - reflexivity.
  - destruct (decide (k' = k)) as [->|Hne]; simpl.
    + reflexivity.
    + rewrite IH. destruct (ODict.get k d); reflexivity.
Qed.

(** ** The activity-time buckets *)

Lemma count_activity_spec (bucket b : string) (p : persona) :
  ODict.get_default 0%Z b (activity_patterns (count_activity bucket p).1) =
  (ODict.get_default 0%Z b (activity_patterns p)
   + if decide (bucket = b) then 1 else 0)%Z.
Proof.
  unfold count_activity, modify; simpl.
  rewrite odict_get_default_update.
  destruct (decide (bucket = b)); subst; lia.
Qed.

(** C2: [_analyze_activity_time] raises what [strptime] raises, leaving
    the persona as it is, and otherwise counts the bucket of the hour of
    the parsed timestamp, and that is all it does.  Every hour falls in
    exactly one of the four buckets, by the closed-open intervals [5,12)
    morning, [12,17) afternoon, [17,22) evening and night for all other
    hours; the six boundary hours of the specification land as listed;
    and counting a bucket adds one to its count and leaves the counts of
    the other buckets. *)
Theorem C2_bucket_of_hour_intervals :
  (forall (timestamp : string) (p : persona),
     _analyze_activity_time timestamp p =
     match Datetime.strptime_ymd timestamp with
     | Ok dt => count_activity (bucket_of_hour (Datetime.hour dt)) p
     | Raise e => (p, Raise e)
     end) /\
  (forall (timestamp : string) (dt : Datetime.datetime) (p : persona) (b : string),
     Datetime.strptime_ymd timestamp = Ok dt ->
     (_analyze_activity_time timestamp p).2 = Ok tt /\
     ODict.get_default 0%Z b
       (activity_patterns (_analyze_activity_time timestamp p).1) =
     (ODict.get_default 0%Z b (activity_patterns p)
      + if decide (b = bucket_of_hour (Datetime.hour dt)) then 1 else 0)%Z) /\
  (forall p : persona,
     _analyze_activity_time "2024-03-09" p = count_activity "night" p /\
     _analyze_activity_time "yesterday" p = (p, Raise ValueError)) /\
  (forall h : Z,
     (bucket_of_hour h = "morning" <-> (5 <= h < 12)%Z) /\
     (bucket_of_hour h = "afternoon" <-> (12 <= h < 17)%Z) /\
     (bucket_of_hour h = "evening" <-> (17 <= h < 22)%Z) /\
     (bucket_of_hour h = "night" <-> (h < 5 \/ 22 <= h)%Z)) /\
  (bucket_of_hour 5 = "morning" /\ bucket_of_hour 4 = "night" /\
   bucket_of_hour 12 = "afternoon" /\ bucket_of_hour 17 = "evening" /\
   bucket_of_hour 22 = "night" /\ bucket_of_hour 0 = "night") /\
  (forall (h : Z) (p : persona) (b : string),
     ODict.get_default 0%Z b
       (activity_patterns (count_activity (bucket_of_hour h) p).1) =
     (ODict.get_default 0%Z b (activity_patterns p)
      + if decide (b = bucket_of_hour h) then 1 else 0)%Z).
Proof.
  assert (Hrun : forall (timestamp : string) (p : persona),
             _analyze_activity_time timestamp p =
             match Datetime.strptime_ymd timestamp with
             | Ok dt => count_activity (bucket_of_hour (Datetime.hour dt)) p
             | Raise e => (p, Raise e)
             end).
  { intros timestamp p. unfold _analyze_activity_time, bind, lift.
    destruct (Datetime.strptime_ymd timestamp); reflexivity. }
  split; [exact Hrun|]. split; [|split; [|split; [|split]]].
  - intros timestamp dt p b Hdt. rewrite Hrun, Hdt.
    split; [reflexivity|]. rewrite count_activity_spec.
    destruct (decide (bucket_of_hour (Datetime.hour dt) = b)),
      (decide (b = bucket_of_hour (Datetime.hour dt))); congruence.
  - intros p. rewrite !Hrun. split; reflexivity.
  - intros h. unfold bucket_of_hour.
    destruct (Z.leb_spec 5 h), (Z.ltb_spec h 12), (Z.leb_spec 12 h),
      (Z.ltb_spec h 17), (Z.leb_spec 17 h), (Z.ltb_spec h 22); simpl;
      repeat split; intros; try lia; try discriminate; try reflexivity.
  - repeat split.
  - intros h p b. rewrite count_activity_spec.
    destruct (decide (bucket_of_hour h = b)), (decide (b = bucket_of_hour h));
      congruence.
Qed.

(** ** One comment, classified *)

(** Evaluate the keyword tests once the text is known. *)
Ltac eval_tests :=
  repeat match goal with
  | |- context [Str.lower ?t] =>
      let v := eval vm_compute in (Str.lower t) in
      change (Str.lower t) with v
  end;
  repeat match goal with
  | |- context [Str.any_in ?l ?t] =>
      let v := eval vm_compute in (Str.any_in l t) in
      change (Str.any_in l t) with v
  | |- context [Str.contains ?w ?t] =>
      let v := eval vm_compute in (Str.contains w t) in
      change (Str.contains w t) with v
  | |- context [Re.search_whole_word ?l ?t] =>
      let v := eval vm_compute in (Re.search_whole_word l t) in
      change (Re.search_whole_word l t) with v
  | |- context [word_count ?t] =>
      let v := eval vm_compute in (word_count t) in
      change (word_count t) with v
  end.

Ltac run_st :=
  cbn [when bind modify ret get lift fst snd
       append_interest append_trait count_subreddit count_activity style_add
       set_interests set_personality_traits set_frequent_subreddits
       set_activity_patterns set_language_style
       basic_info interests personality_traits frequent_subreddits
       activity_patterns language_style top_interests top_subreddits
       new_persona ODict.empty].

Lemma style_get_insert_eq (k : string) (v : Z) (m : gmap string Z) :
  style_get k (<[k := v]> m) = v.
Proof. unfold style_get. rewrite lookup_insert_eq. reflexivity. Qed.

Lemma style_get_insert_ne (k k' : string) (v : Z) (m : gmap string Z) :
  k <> k' -> style_get k' (<[k := v]> m) = style_get k' m.
Proof. intros Hne. unfold style_get. rewrite lookup_insert_ne by assumption. reflexivity. Qed.

(** C6: the comment "I think Python is great! Thanks for the help" is tagged
    with the interest programming and the traits opinionated and polite
    and with nothing else; the exclamation counter grows by one; the
    self-reference entry is left as it was, so it reads 0 on a fresh
    persona: the text has none of the words i'm, i am, me, my. *)
Theorem C6_scenario_comment_classification
  (sub created url : string) (score : Z) (p : persona)
  (info : list (string * pyval)) :
  let comment :=
    Comment.mk "I think Python is great! Thanks for the help" sub created score url in
  let cite := fun l : list string => l ++ [url] in
  let p' := (_analyze_comment comment p).1 in
  let fresh := (_analyze_comment comment (new_persona info)).1 in
  (_analyze_comment comment p).2 = Ok tt /\
  interests p' = ODict.update [] cite "programming" (interests p) /\
  personality_traits p' =
    ODict.update [] cite "polite"
      (ODict.update [] cite "opinionated" (personality_traits p)) /\
  style_get "exclamation_use" (language_style p') =
    (style_get "exclamation_use" (language_style p) + 1)%Z /\
  language_style p' !! "self_reference" = language_style p !! "self_reference" /\
  Re.search_whole_word self_reference_words (Str.lower (Comment.body comment)) = false /\
  interests fresh = [("programming", [url])] /\
  personality_traits fresh = [("opinionated", [url]); ("polite", [url])] /\
  style_get "exclamation_use" (language_style fresh) = 1%Z /\
  style_get "self_reference" (language_style fresh) = 0%Z.
Proof.
  intros comment cite p' fresh. subst comment p' fresh.
  unfold _analyze_comment. cbn [Comment.body Comment.permalink].
  eval_tests. run_st.
  split; [reflexivity|]. split; [reflexivity|]. split; [reflexivity|].
  split.
  { rewrite style_get_insert_eq, style_get_insert_ne by discriminate. reflexivity. }
  split.
  { rewrite !lookup_insert_ne by discriminate. reflexivity. }
  split; [reflexivity|]. split; [reflexivity|]. split; [reflexivity|].
  split.
  - rewrite style_get_insert_eq, style_get_insert_ne by discriminate. reflexivity.
  - unfold style_get. rewrite !lookup_insert_ne by discriminate. reflexivity.
Qed.

(** ** The driver *)

(** C9: when nothing is left of the typed line once the part up to
    [/user/] and the slashes around the name are stripped, the run prints
    the invalid-URL message right after the prompt and stops: the API is
    not asked, no file is written. *)
Theorem C9_empty_username_reported_without_fetch
  (reddit : string -> Praw.response) (now : Datetime.datetime) (typed : string) :
  parse_username typed = "" ->
  main reddit now typed [] =
    (greeting ++ [Print "Invalid Reddit profile URL. Please include the username."],
     Ok tt) /\
  fetch_attempted (main reddit now typed []).1 = false /\
  file_written (main reddit now typed []).1 = false.
Proof.
  intros Hname.
  assert (Hrun : main reddit now typed [] =
    (greeting ++ [Print "Invalid Reddit profile URL. Please include the username."],
     Ok tt)).
  { unfold main. rewrite Hname. reflexivity. }
  rewrite Hrun. repeat split.
Qed.

Lemma C9_witness :
  parse_username "https://www.reddit.com/user/" = "" /\
  fetch_attempted
    (main unreachable_reddit sample_now "https://www.reddit.com/user/" []).1 = false.
Proof.
  split; [reflexivity|].
  apply (C9_empty_username_reported_without_fetch unreachable_reddit sample_now
           "https://www.reddit.com/user/").
  reflexivity.
Defined.




(** ** What one item does to the persona *)

Lemma cites_update (category c url : string) (d : ODict.t (list string)) :
  grew_by_at_most url (cites c d)
    (cites c (ODict.update [] (fun l => l ++ [url]) category d)).
Proof.
  unfold cites, grew_by_at_most. rewrite odict_get_default_update.
  destruct (decide (category = c)) as [->|]; [right | left]; reflexivity.
Qed.

Lemma cites_update_other (category c url : string) (d : ODict.t (list string)) :
  category <> c ->
  cites c (ODict.update [] (fun l => l ++ [url]) category d) = cites c d.
Proof.
  intros Hne. unfold cites. rewrite odict_get_default_update.
  rewrite decide_False by assumption. reflexivity.
Qed.

Lemma cite_if_grew (b : bool) (category c url : string) (d : ODict.t (list string)) :
  grew_by_at_most url (cites c d) (cites c (cite_if b category url d)).
Proof.
  destruct b; simpl; [apply cites_update | left; reflexivity].
Qed.

Lemma cite_if_other (b : bool) (category c url : string) (d : ODict.t (list string)) :
  category <> c -> cites c (cite_if b category url d) = cites c d.
Proof.
  intros Hne. destruct b; simpl; [apply cites_update_other; assumption | reflexivity].
Qed.

(** [_analyze_comment] never raises; what it leaves in the persona is
    three optional citations under the interests, three under the traits,
    and the three language-style counters. *)
Lemma analyze_comment_effect (comment : Comment.t) (p : persona) :
  let text := Str.lower (Comment.body comment) in
  let url := Comment.permalink comment in
  let p' := (_analyze_comment comment p).1 in
  (_analyze_comment comment p).2 = Ok tt /\
  (exists b1 b2 b3 : bool,
     interests p' =
     cite_if b3 "movies" url
       (cite_if b2 "gaming" url (cite_if b1 "programming" url (interests p)))) /\
  (exists b4 b5 b6 : bool,
     personality_traits p' =
     cite_if b6 "polite" url
       (cite_if b5 "inquisitive" url
          (cite_if b4 "opinionated" url (personality_traits p)))) /\
  frequent_subreddits p' = frequent_subreddits p /\
  activity_patterns p' = activity_patterns p /\
  style_get "comment_length" (language_style p') =
    (style_get "comment_length" (language_style p) + word_count text)%Z /\
  style_get "exclamation_use" (language_style p') =
    (style_get "exclamation_use" (language_style p)
     + Z.b2z (Str.contains "!" text))%Z /\
  style_get "self_reference" (language_style p') =
    (style_get "self_reference" (language_style p)
     + Z.b2z (Re.search_whole_word self_reference_words text))%Z.
Proof.
  intros text url p'. subst p'. unfold _analyze_comment. fold text. fold url.
  generalize (Str.any_in ["python"; "javascript"; "java"; "c++"] text) as b1.
  generalize (Str.any_in ["game"; "gaming"; "playstation"; "xbox"] text) as b2.
  generalize (Str.any_in ["movie"; "film"; "netflix"; "hbo"] text) as b3.
  generalize (Str.any_in ["i think"; "in my opinion"] text) as b4.
  generalize (Str.contains "?" text) as b5.
  generalize (Str.any_in ["thanks"; "thank you"; "appreciate"] text) as b6.
  generalize (word_count text) as n.
  generalize (Str.contains "!" text) as b8.
  generalize (Re.search_whole_word self_reference_words text) as b9.
  intros b9 b8 n b6 b5 b4 b3 b2 b1.
  split; [destruct b1, b2, b3, b4, b5, b6, b8, b9; reflexivity|].
  split; [exists b1, b2, b3; destruct b1, b2, b3, b4, b5, b6, b8, b9; reflexivity|].
  split; [exists b4, b5, b6; destruct b1, b2, b3, b4, b5, b6, b8, b9; reflexivity|].
  split; [destruct b1, b2, b3, b4, b5, b6, b8, b9; reflexivity|].
  split; [destruct b1, b2, b3, b4, b5, b6, b8, b9; reflexivity|].
  assert (Hstyle : language_style
            ((when b1 (append_interest "programming" url);;
              when b2 (append_interest "gaming" url);;
              when b3 (append_interest "movies" url);;
              when b4 (append_trait "opinionated" url);;
              when b5 (append_trait "inquisitive" url);;
              when b6 (append_trait "polite" url);;
              style_add "comment_length" n;;
              when b8 (style_add "exclamation_use" 1);;
              when b9 (style_add "self_reference" 1))%st p).1 =
          (fun m => if b9 then <["self_reference" := (style_get "self_reference" m + 1)%Z]> m else m)
            ((fun m => if b8 then <["exclamation_use" := (style_get "exclamation_use" m + 1)%Z]> m else m)
               (<["comment_length" := (style_get "comment_length" (language_style p) + n)%Z]>
                  (language_style p)))).
  { destruct b1, b2, b3, b4, b5, b6, b8, b9; reflexivity. }
  rewrite Hstyle. clear Hstyle.
  destruct b8, b9; cbn [Z.b2z];
    repeat split;
    repeat first [ rewrite style_get_insert_eq
                 | rewrite style_get_insert_ne by discriminate ];
    lia.
Qed.

Lemma analyze_post_effect (post : Post.t) (p : persona) :
  let url := Post.permalink post in
  let p' := (_analyze_post post p).1 in
  (_analyze_post post p).2 = Ok tt /\
  (exists b1 b2 : bool,
     interests p' =
     cite_if b2 "discussions" url (cite_if b1 "help_seeking" url (interests p))) /\
  (exists b3 : bool,
     personality_traits p' = cite_if b3 "inquisitive" url (personality_traits p)) /\
  frequent_subreddits p' = frequent_subreddits p /\
  activity_patterns p' = activity_patterns p /\
  language_style p' = language_style p.
Proof.
  intros url p'. subst p'. unfold _analyze_post. fold url.
  generalize (Str.any_in ["help"; "advice"; "suggestion"]
                (Str.lower (Post.title post +:+ " " +:+ default "" (Post.selftext post)))) as b1.
  generalize (Str.any_in ["discussion"; "debate"; "opinion"]
                (Str.lower (Post.title post +:+ " " +:+ default "" (Post.selftext post)))) as b2.
  generalize (Str.contains "?" (Post.title post)) as b3.
  intros b3 b2 b1.
  split; [destruct b1, b2, b3; reflexivity|].
  split; [exists b1, b2; destruct b1, b2, b3; reflexivity|].
  split; [exists b3; destruct b1, b2, b3; reflexivity|].
  repeat split; destruct b1, b2, b3; reflexivity.
Qed.

(** The format has no hour, so a timestamp that parses is a midnight. *)
Lemma strptime_ymd_midnight (s : string) (dt : Datetime.datetime) :
  Datetime.strptime_ymd s = Ok dt ->
  Datetime.hour dt = 0%Z /\ Datetime.minute dt = 0%Z /\ Datetime.second dt = 0%Z.
Proof.
  unfold Datetime.strptime_ymd. intros H.
  repeat match type of H with
         | match ?x with _ => _ end = _ => destruct x; try discriminate
         | (if ?x then _ else _) = _ => destruct x; try discriminate
         end.
  injection H as <-. repeat split.
Qed.

(** [_analyze_activity_time] either raises on the timestamp, leaving the
    persona alone, or counts the bucket of hour 0. *)
Lemma analyze_activity_time_run (timestamp : string) (p : persona) :
  _analyze_activity_time timestamp p =
  match Datetime.strptime_ymd timestamp with
  | Ok _ => ((count_activity (bucket_of_hour 0) p).1, Ok tt)
  | Raise e => (p, Raise e)
  end.
Proof.
  unfold _analyze_activity_time, bind, lift.
  destruct (Datetime.strptime_ymd timestamp) as [dt|e] eqn:Hparse; [|reflexivity].
  apply strptime_ymd_midnight in Hparse as (-> & _ & _). reflexivity.
Qed.

Lemma analyze_activity_time_frame (timestamp : string) (p : persona) :
  let p' := (_analyze_activity_time timestamp p).1 in
  interests p' = interests p /\
  personality_traits p' = personality_traits p /\
  frequent_subreddits p' = frequent_subreddits p /\
  language_style p' = language_style p.
Proof.
  cbv zeta. rewrite analyze_activity_time_run.
  destruct (Datetime.strptime_ymd timestamp); repeat split.
Qed.

(** The step of the first loop, as one store transformer followed by the
    parse of the timestamp. *)
Lemma analyze_comment_item_run (comment : Comment.t) (p : persona) :
  analyze_comment_item comment p =
  _analyze_activity_time (Comment.created_utc comment)
    (count_subreddit (Comment.subreddit comment) (_analyze_comment comment p).1).1.
Proof.
  unfold analyze_comment_item, bind.
  destruct (analyze_comment_effect comment p) as [Hok _]. cbv zeta in Hok.
  destruct (_analyze_comment comment p) as [p1 r]. simpl in Hok. subst r.
  reflexivity.
Qed.

Lemma analyze_post_item_run (post : Post.t) (p : persona) :
  analyze_post_item post p =
  _analyze_activity_time (Post.created_utc post)
    (count_subreddit (Post.subreddit post) (_analyze_post post p).1).1.
Proof.
  unfold analyze_post_item, bind.
  destruct (analyze_post_effect post p) as [Hok _]. cbv zeta in Hok.
  destruct (_analyze_post post p) as [p1 r]. simpl in Hok. subst r.
  reflexivity.
Qed.

Lemma count_subreddit_spec (name n : string) (p : persona) :
  interactions n (frequent_subreddits (count_subreddit name p).1) =
  (interactions n (frequent_subreddits p) + if decide (n = name) then 1 else 0)%Z.
Proof.
  unfold count_subreddit, modify, interactions; simpl.
  rewrite odict_get_default_update.
  destruct (decide (name = n)), (decide (n = name)); subst; try congruence; lia.
Qed.

Lemma three_steps_grew (b1 b2 b3 : bool) (c1 c2 c3 c url : string)
  (d : ODict.t (list string)) :
  c1 <> c2 -> c1 <> c3 -> c2 <> c3 ->
  grew_by_at_most url (cites c d)
    (cites c (cite_if b3 c3 url (cite_if b2 c2 url (cite_if b1 c1 url d)))).
Proof.
  intros H12 H13 H23.
  destruct (decide (c3 = c)) as [->|H3].
  - rewrite <- (cite_if_other b1 c1 c url d) by assumption.
    rewrite <- (cite_if_other b2 c2 c url (cite_if b1 c1 url d)) by assumption.
    apply cite_if_grew.
  - rewrite cite_if_other by assumption.
    destruct (decide (c2 = c)) as [->|H2].
    + rewrite <- (cite_if_other b1 c1 c url d) by assumption.
      apply cite_if_grew.
    + rewrite cite_if_other by assumption. apply cite_if_grew.
Qed.

(** C7: one item adds at most one permalink to the citation list of any
    category, interests and traits alike, and adds exactly one to the
    count of its own subreddit and nothing to the others; this holds of
    the persona the item leaves behind whether or not its timestamp
    parses.  An item may match no category, one, or several. *)
Theorem C7_one_citation_per_category_one_count_per_item :
  (forall (comment : Comment.t) (p : persona) (category name : string),
     let p' := (analyze_comment_item comment p).1 in
     grew_by_at_most (Comment.permalink comment)
       (cites category (interests p)) (cites category (interests p')) /\
     grew_by_at_most (Comment.permalink comment)
       (cites category (personality_traits p))
       (cites category (personality_traits p')) /\
     interactions name (frequent_subreddits p') =
       (interactions name (frequent_subreddits p)
        + if decide (name = Comment.subreddit comment) then 1 else 0)%Z) /\
  (forall (post : Post.t) (p : persona) (category name : string),
     let p' := (analyze_post_item post p).1 in
     grew_by_at_most (Post.permalink post)
       (cites category (interests p)) (cites category (interests p')) /\
     grew_by_at_most (Post.permalink post)
       (cites category (personality_traits p))
       (cites category (personality_traits p')) /\
     interactions name (frequent_subreddits p') =
       (interactions name (frequent_subreddits p)
        + if decide (name = Post.subreddit post) then 1 else 0)%Z) /\
  (let p' := (analyze_comment_item plain_comment (new_persona [])).1 in
   interests p' = [] /\ personality_traits p' = []) /\
  (let p' := (analyze_comment_item gaming_comment (new_persona [])).1 in
   ODict.keys (interests p') = ["gaming"] /\ personality_traits p' = []) /\
  (let p' := (analyze_comment_item busy_comment (new_persona [])).1 in
   ODict.keys (interests p') = ["gaming"; "movies"] /\
   ODict.keys (personality_traits p') = ["opinionated"; "inquisitive"; "polite"] /\
   frequent_subreddits p' = [("movies", 1%Z)]).
Proof.
  split; [|split; [|split; [|split]]].
  - intros comment p category name p'. subst p'.
    rewrite analyze_comment_item_run.
    destruct (analyze_activity_time_frame (Comment.created_utc comment)
                (count_subreddit (Comment.subreddit comment)
                   (_analyze_comment comment p).1).1) as (Hi & Ht & Hs & _).
    cbv zeta in Hi, Ht, Hs. rewrite Hi, Ht, Hs. clear Hi Ht Hs.
    rewrite count_subreddit_spec.
    destruct (analyze_comment_effect comment p)
      as (_ & (b1 & b2 & b3 & Hi) & (b4 & b5 & b6 & Ht) & Hs & _).
    cbv zeta in Hi, Ht, Hs.
    unfold count_subreddit, modify; cbn [fst interests personality_traits
      set_frequent_subreddits].
    rewrite Hi, Ht, Hs.
    split; [apply three_steps_grew; discriminate|].
    split; [apply three_steps_grew; discriminate|].
    reflexivity.
  - intros post p category name p'. subst p'.
    rewrite analyze_post_item_run.
    destruct (analyze_activity_time_frame (Post.created_utc post)
                (count_subreddit (Post.subreddit post)
                   (_analyze_post post p).1).1) as (Hi & Ht & Hs & _).
    cbv zeta in Hi, Ht, Hs. rewrite Hi, Ht, Hs. clear Hi Ht Hs.
    rewrite count_subreddit_spec.
    destruct (analyze_post_effect post p)
      as (_ & (b1 & b2 & Hi) & (b3 & Ht) & Hs & _).
    cbv zeta in Hi, Ht, Hs.
    unfold count_subreddit, modify; cbn [fst interests personality_traits
      set_frequent_subreddits].
    rewrite Hi, Ht, Hs.
    split.
    { change (cite_if b2 "discussions" (Post.permalink post)
                (cite_if b1 "help_seeking" (Post.permalink post) (interests p)))
        with (cite_if b2 "discussions" (Post.permalink post)
                (cite_if b1 "help_seeking" (Post.permalink post)
                   (cite_if false "" (Post.permalink post) (interests p)))).
      apply three_steps_grew; discriminate. }
    split; [apply cite_if_grew | reflexivity].
  - vm_compute. split; reflexivity.
  - vm_compute. split; reflexivity.
  - vm_compute. repeat split; reflexivity.
Qed.

(** ** The whole-word search *)

Lemma startswith_spec (w s : string) :
  Str.startswith w s = true <-> exists post, s = w +:+ post.
Proof.
  revert s. induction w as [|a w IH]; intros s; simpl.
  - split; [intros _; exists s; reflexivity | reflexivity].
  - destruct s as [|b s].
    + split; [discriminate | intros [post Hpost]; discriminate].
    + destruct (ascii_dec a b) as [->|Hne].
      * rewrite IH. split; intros [post Hpost]; exists post.
        -- rewrite append_cons. f_equal. exact Hpost.
        -- rewrite append_cons in Hpost. injection Hpost as ->. reflexivity.
      * split; [discriminate|].
        intros [post Hpost]. rewrite append_cons in Hpost. congruence.
Qed.

(** [sub in s] holds exactly when [s] splits around [sub]. *)
Lemma contains_spec (sub s : string) :
  Str.contains sub s = true <-> exists pre post, s = pre +:+ sub +:+ post.
Proof.
  induction s as [|c s IH]; cbn [Str.contains].
  - rewrite orb_false_r, startswith_spec. split.
    + intros [post Hpost]. exists "", post. exact Hpost.
    + intros (pre & post & Hs). destruct pre as [|a pre]; [|discriminate].
      exists post. exact Hs.
  - rewrite orb_true_iff, startswith_spec, IH. split.
    + intros [[post Hpost] | (pre & post & Hs)].
      * exists "", post. exact Hpost.
      * exists (String c pre), post. rewrite append_cons, <- Hs. reflexivity.
    + intros (pre & post & Hs). destruct pre as [|a pre].
      * left. exists post. exact Hs.
      * right. rewrite append_cons in Hs. injection Hs as -> Hs.
        exists pre, post. exact Hs.
Qed.




(** ** The language-style totals *)





(** What a completed run of [analyze_persona] went through: the two loops,
    then the two rankings. *)
Lemma analyze_persona_inv (now : Datetime.datetime) (info : user_info) (p : persona) :
  analyze_persona now info = Ok p ->
  exists (age : string) (p1 p2 : persona),
    _calculate_account_age now (created_utc info) = Ok age /\
    for_each (comments info) analyze_comment_item
      (new_persona
         [("Username", VStr (username info)); ("Account Age", VStr age);
          ("Comment Karma", VInt (comment_karma info));
          ("Post Karma", VInt (link_karma info));
          ("Premium Member", VBool (is_gold info))]) = (p1, Ok tt) /\
    for_each (posts info) analyze_post_item p1 = (p2, Ok tt) /\
    p = set_top_subreddits (top5 interaction_count (frequent_subreddits p2))
          (set_top_interests (top5 citation_count (interests p2)) p2).
Proof.
  unfold analyze_persona. intros H.
  destruct (_calculate_account_age now (created_utc info)) as [age|e]; [|discriminate].
  unfold analyze_loops, bind in H.
  match type of H with
  | context [for_each (comments info) analyze_comment_item ?s] =>
      destruct (for_each (comments info) analyze_comment_item s)
        as [p1 [[]|e1]] eqn:H1; [|discriminate]
  end.
  destruct (for_each (posts info) analyze_post_item p1) as [p2 [[]|e2]] eqn:H2;
    [|discriminate].
  simpl in H. injection H as <-.
  exists age, p1, p2. repeat split; auto.
Qed.



(** ** The ranking *)

Section Ranking.

Context {A : Type} (key : A -> Z).

Lemma insert_desc_perm (x : A) (l : list A) :
  Permutation (insert_desc key x l) (x :: l).
Proof.
  induction l as [|y l IH]; simpl.
  - reflexivity.
  - destruct (key x <? key y)%Z.
    + rewrite IH. apply perm_swap.
    + reflexivity.
Qed.

Lemma sorted_desc_perm (l : list A) : Permutation (sorted_desc key l) l.
Proof.
  induction l as [|x l IH]; simpl.
  - reflexivity.
  - rewrite insert_desc_perm. constructor. exact IH.
Qed.

Lemma insert_desc_sorted (x : A) (l : list A) :
  StronglySorted (key_ge key) l -> StronglySorted (key_ge key) (insert_desc key x l).
Proof.
  induction 1 as [|y l Hl IH Hy]; simpl.
  - repeat constructor.
  - destruct (Z.ltb_spec (key x) (key y)) as [Hlt|Hge].
    + constructor; [exact IH|].
      rewrite List.Forall_forall. intros z Hz.
      apply (Permutation_in _ (insert_desc_perm x l)) in Hz.
      destruct Hz as [<-|Hz].
      * unfold key_ge. lia.
      * rewrite List.Forall_forall in Hy. apply Hy, Hz.
    + constructor; [constructor; assumption|].
      constructor; [exact Hge|].
      rewrite List.Forall_forall in Hy |- *. intros z Hz.
      specialize (Hy z Hz). unfold key_ge in *. lia.
Qed.

Lemma sorted_desc_sorted (l : list A) : StronglySorted (key_ge key) (sorted_desc key l).
Proof.
  induction l as [|x l IH]; simpl.
  - constructor.
  - apply insert_desc_sorted, IH.
Qed.

Lemma insert_desc_with_key (k : Z) (x : A) (l : list A) :
  with_key key k (insert_desc key x l) = with_key key k (x :: l).
Proof.
  unfold with_key.
  induction l as [|y l IH]; simpl.
  - reflexivity.
  - destruct (Z.ltb_spec (key x) (key y)) as [Hlt|Hge]; [|reflexivity].
    simpl. rewrite IH. simpl.
    destruct (Z.eqb_spec (key x) k), (Z.eqb_spec (key y) k); try reflexivity.
    lia.
Qed.

(** Stability: items with equal keys keep the order they had. *)
Lemma sorted_desc_stable (k : Z) (l : list A) :
  with_key key k (sorted_desc key l) = with_key key k l.
Proof.
  induction l as [|x l IH]; simpl.
  - reflexivity.
  - rewrite insert_desc_with_key. unfold with_key in *. simpl. rewrite IH.
    reflexivity.
Qed.

(** The ranking is the stable sort cut after five items. *)
Lemma top5_spec (l : list A) :
  top5 key l = take 5 (sorted_desc key l) /\
  Permutation (sorted_desc key l) l /\
  StronglySorted (key_ge key) (sorted_desc key l) /\
  (forall k, with_key key k (sorted_desc key l) = with_key key k l) /\
  (length (top5 key l) <= 5)%nat.
Proof.
  split; [reflexivity|].
  split; [apply sorted_desc_perm|].
  split; [apply sorted_desc_sorted|].
  split; [intros k; apply sorted_desc_stable|].
  unfold top5. rewrite length_take. lia.
Qed.

End Ranking.

(** C4: when the analysis completes, the ranked interests are the first
    five items of the interests sorted by the length of the citation list,
    longest first; the sort only permutes the items and is stable, items
    with lists of equal length keeping the order of the dictionary, which
    is the order in which the categories were first met.  The subreddits
    are ranked by the same sort on their counts.  On the counts a:3, b:3,
    c:5 met in that order the ranking is c, a, b. *)
Theorem C4_top5_stable_ranking
  (now : Datetime.datetime) (info : user_info) (p : persona) :
  analyze_persona now info = Ok p ->
  (top_interests p = take 5 (sorted_desc citation_count (interests p)) /\
   Permutation (sorted_desc citation_count (interests p)) (interests p) /\
   StronglySorted (key_ge citation_count) (sorted_desc citation_count (interests p)) /\
   forall k, with_key citation_count k (sorted_desc citation_count (interests p))
             = with_key citation_count k (interests p)) /\
  (top_subreddits p = take 5 (sorted_desc interaction_count (frequent_subreddits p)) /\
   Permutation (sorted_desc interaction_count (frequent_subreddits p))
     (frequent_subreddits p) /\
   StronglySorted (key_ge interaction_count)
     (sorted_desc interaction_count (frequent_subreddits p)) /\
   forall k, with_key interaction_count k
               (sorted_desc interaction_count (frequent_subreddits p))
             = with_key interaction_count k (frequent_subreddits p)) /\
  (forall (category url : string) (d : ODict.t (list string)),
     ODict.keys (ODict.update [] (fun l => l ++ [url]) category d) =
     match ODict.get category d with
     | Some _ => ODict.keys d
     | None => ODict.keys d ++ [category]
     end) /\
  ODict.keys (top5 citation_count example_interests) = ["c"; "a"; "b"] /\
  ODict.keys (top5 interaction_count example_subreddits) = ["c"; "a"; "b"].
Proof.
  intros Hrun.
  destruct (analyze_persona_inv now info p Hrun) as (age & p1 & p2 & _ & _ & _ & ->).
  cbn [top_interests top_subreddits interests frequent_subreddits
       set_top_interests set_top_subreddits].
  split; [|split; [|split; [|split; reflexivity]]].
  - destruct (top5_spec citation_count (interests p2)) as (H1 & H2 & H3 & H4 & _).
    auto.
  - destruct (top5_spec interaction_count (frequent_subreddits p2))
      as (H1 & H2 & H3 & H4 & _).
    auto.
  - intros category url d. apply odict_keys_update.
Qed.

Lemma C4_witness :
  exists p, analyze_persona sample_now two_comments = Ok p /\
    top_interests p = take 5 (sorted_desc citation_count (interests p)) /\
    top_subreddits p = take 5 (sorted_desc interaction_count (frequent_subreddits p)).
Proof.
  eexists. split.
  - vm_compute. reflexivity.
  - pose proof (C4_top5_stable_ranking sample_now two_comments _
                  ltac:(vm_compute; reflexivity)) as ((H1 & _) & (H2 & _) & _).
    split; [exact H1 | exact H2].
Defined.

(** ** The activity section of the report *)

(** A positive integer divided by itself is exactly [1.0]. *)
Lemma truediv_self (n : Z) : (0 < n)%Z -> Float64.truediv n n = Ok float_one.
Proof.
  intros Hn. unfold Float64.truediv.
  destruct (Z.eqb_spec n 0) as [?|_]; [lia|].
  rewrite Z.abs_eq by lia.
  unfold Float64.nearest.
  destruct (Z.eqb_spec n 0) as [?|_]; [lia|].
  replace (Z.log2 n - Z.log2 n - 52)%Z with (-52)%Z by lia.
  unfold Float64.below_pow2. change (-52 + 52)%Z with 0%Z.
  change (0 <=? 0)%Z with true. cbv iota.
  change (2 ^ 0)%Z with 1%Z. rewrite Z.mul_1_r, Z.ltb_irrefl.
  change (Z.max (-52) Float64.emin) with (-52)%Z.
  change (-52 <? 0)%Z with true. cbv iota.
  change (- -52)%Z with 52%Z.
  unfold Float64.round_half_even.
  rewrite (Z.mul_comm n), Z.div_mul, Z.mod_mul by lia.
  change (2 * 0)%Z with 0%Z.
  destruct (Z.ltb_spec 0 n) as [_|?]; [|lia].
  change (2 ^ 52 =? 2 ^ 53)%Z with false. cbv iota.
  change (Float64.emax <? -52)%Z with false. cbv iota.
  destruct (Z.ltb_spec n 0) as [?|_]; [lia|]. reflexivity.
Qed.

Lemma percentage_of_everything :
  Float64.mul_int float_one 100 = Ok float_hundred /\
  Float64.format_1f float_hundred = "100.0".
Proof. split; vm_compute; reflexivity. Qed.

Lemma night_only_succ (n : Z) :
  (0 <= n)%Z ->
  ODict.update 0%Z Z.succ "night" (night_only n) = night_only (n + 1).
Proof.
  intros Hn. unfold night_only.
  destruct (decide (n = 0%Z)) as [->|Hne];
    (destruct (decide ((n + 1)%Z = 0%Z)) as [?|_] || destruct (decide ((0 + 1)%Z = 0%Z)) as [?|_]);
    try lia; reflexivity.
Qed.

Lemma activity_after_item (timestamp : string) (p p' : persona) (n : Z) :
  (0 <= n)%Z ->
  _analyze_activity_time timestamp p = (p', Ok tt) ->
  activity_patterns p = night_only n ->
  activity_patterns p' = night_only (n + 1).
Proof.
  intros Hn Hrun Hp. rewrite analyze_activity_time_run in Hrun.
  destruct (Datetime.strptime_ymd timestamp); [|discriminate].
  injection Hrun as <-.
  unfold count_activity, modify; simpl. rewrite Hp.
  apply night_only_succ, Hn.
Qed.

Lemma comment_item_activity (comment : Comment.t) (p p' : persona) (n : Z) :
  (0 <= n)%Z ->
  analyze_comment_item comment p = (p', Ok tt) ->
  activity_patterns p = night_only n ->
  activity_patterns p' = night_only (n + 1).
Proof.
  intros Hn Hrun Hp. rewrite analyze_comment_item_run in Hrun.
  apply (activity_after_item _ _ _ n Hn Hrun).
  destruct (analyze_comment_effect comment p) as (_ & _ & _ & _ & Ha & _).
  cbv zeta in Ha. unfold count_subreddit, modify; simpl. congruence.
Qed.

Lemma post_item_activity (post : Post.t) (p p' : persona) (n : Z) :
  (0 <= n)%Z ->
  analyze_post_item post p = (p', Ok tt) ->
  activity_patterns p = night_only n ->
  activity_patterns p' = night_only (n + 1).
Proof.
  intros Hn Hrun Hp. rewrite analyze_post_item_run in Hrun.
  apply (activity_after_item _ _ _ n Hn Hrun).
  destruct (analyze_post_effect post p) as (_ & _ & _ & _ & Ha & _).
  cbv zeta in Ha. unfold count_subreddit, modify; simpl. congruence.
Qed.

(** A completed loop over [l] moves the night count from [n] to
    [n + length l]. *)
Lemma loop_activity {A} (body : A -> ST persona unit) (l : list A) :
  (forall x p p' n, (0 <= n)%Z -> body x p = (p', Ok tt) ->
     activity_patterns p = night_only n ->
     activity_patterns p' = night_only (n + 1)) ->
  forall p p' n, (0 <= n)%Z -> for_each l body p = (p', Ok tt) ->
    activity_patterns p = night_only n ->
    activity_patterns p' = night_only (n + Z.of_nat (length l)).
Proof.
  intros Hbody. induction l as [|x l IH]; intros p p' n Hn Hrun Hp.
  - simpl in Hrun. unfold ret in Hrun. injection Hrun as <-.
    rewrite Hp. f_equal. simpl. lia.
  - simpl in Hrun. unfold bind in Hrun.
    destruct (body x p) as [p1 [[]|e]] eqn:Hx; [|discriminate].
    replace (n + Z.of_nat (length (x :: l)))%Z
      with ((n + 1) + Z.of_nat (length l))%Z by (simpl length; lia).
    apply (IH p1 p' (n + 1)%Z); [lia | exact Hrun | eauto].
Qed.

Lemma analyzed_activity (now : Datetime.datetime) (info : user_info) (p : persona) :
  analyze_persona now info = Ok p ->
  activity_patterns p =
  night_only (Z.of_nat (length (comments info) + length (posts info))).
Proof.
  intros Hrun.
  destruct (analyze_persona_inv now info p Hrun) as (age & p1 & p2 & _ & H1 & H2 & ->).
  cbn [activity_patterns set_top_subreddits set_top_interests].
  apply (loop_activity _ _ comment_item_activity _ _ 0%Z) in H1;
    [|lia|reflexivity].
  apply (loop_activity _ _ post_item_activity _ _
           (0 + Z.of_nat (length (comments info)))%Z) in H2; [|lia|exact H1].
  rewrite H2. f_equal. lia.
Qed.

Lemma write_activity_line_all (time : string) (n : Z) (file : string) :
  (0 < n)%Z ->
  write_activity_line n (time, n) file =
  (file +:+ "- Most active during " +:+ time +:+ ": 100.0% of activity" +:+ nl,
   Ok tt).
Proof.
  intros Hn. unfold write_activity_line, bind, lift.
  rewrite truediv_self by exact Hn.
  destruct percentage_of_everything as [Hmul Hfmt]. rewrite Hmul, Hfmt.
  reflexivity.
Qed.

Lemma write_night_only (p : persona) (n : Z) (file : string) :
  (0 <= n)%Z ->
  activity_patterns p = night_only n ->
  write_activity_patterns p file = (file +:+ activity_section n, Ok tt).
Proof.
  intros Hn Hp. unfold write_activity_patterns, activity_section. rewrite Hp.
  unfold night_only. destruct (decide (n = 0%Z)) as [->|Hne].
  - unfold bind, write, modify, for_each, ret.
    rewrite !append_assoc. reflexivity.
  - change (sum_values [("night", n)]) with (n + 0)%Z. rewrite Z.add_0_r.
    unfold for_each, bind. unfold write at 1. unfold modify at 1.
    rewrite write_activity_line_all by lia.
    unfold ret, write, modify.
    rewrite !append_assoc. reflexivity.
Qed.

(** *** The sections only append *)

Lemma only_appends_write (text : string) : only_appends (write text).
Proof. exists text. reflexivity. Qed.

Lemma only_appends_ret : only_appends (ret tt).
Proof. exists "". intros file. unfold ret. rewrite append_empty_r. reflexivity. Qed.

Lemma only_appends_bind (m : ST string unit) (k : unit -> ST string unit) :
  only_appends m -> only_appends (k tt) -> only_appends (bind m k).
Proof.
  intros [out1 H1] [out2 H2]. exists (out1 +:+ out2). intros file.
  unfold bind. rewrite H1, H2, append_assoc. reflexivity.
Qed.

Lemma only_appends_for_each {A} (l : list A) (body : A -> ST string unit) :
  (forall x, only_appends (body x)) -> only_appends (for_each l body).
Proof.
  intros Hbody. induction l as [|x l IH]; simpl.
  - apply only_appends_ret.
  - apply only_appends_bind; [apply Hbody | exact IH].
Qed.

Lemma only_appends_when (b : bool) (m : ST string unit) :
  only_appends m -> only_appends (when b m).
Proof. destruct b; [auto | intros _; apply only_appends_ret]. Qed.

Lemma appends_of_only (m : ST string unit) : only_appends m -> appends m.
Proof. intros [out H]. exists out, (Ok tt). exact H. Qed.

Lemma appends_bind (m : ST string unit) (k : unit -> ST string unit) :
  appends m -> appends (k tt) -> appends (bind m k).
Proof.
  intros (out1 & [[]|e] & H1) (out2 & r2 & H2).
  - exists (out1 +:+ out2), r2. intros file.
    unfold bind. rewrite H1, H2, append_assoc. reflexivity.
  - exists out1, (Raise e). intros file. unfold bind. rewrite H1. reflexivity.
Qed.

Lemma only_appends_category (limit : nat) (item : string * list string) :
  only_appends (write_category limit item).
Proof.
  destruct item as [name citations]. unfold write_category, write_citations.
  apply only_appends_bind; [apply only_appends_write|].
  apply only_appends_for_each. intros url. apply only_appends_write.
Qed.

Lemma only_appends_before_activity (p : persona) :
  only_appends
    (write ("=== REDDIT USER PERSONA ===" +:+ nl +:+ nl) ;;
     write_basic_information p ;;
     write_top_interests p ;;
     write_personality_traits p)%st.
Proof.
  unfold write_basic_information, write_top_interests, write_personality_traits.
  repeat first
    [ apply only_appends_write
    | apply only_appends_category
    | apply only_appends_bind
    | apply only_appends_for_each; intros ? ].
  destruct x as [key value]. apply only_appends_write.
Qed.

Lemma appends_language_style (p : persona) : appends (write_language_style p).
Proof.
  unfold write_language_style.
  apply appends_bind; [apply appends_of_only, only_appends_write|].
  apply appends_bind.
  - destruct (0 <? style_get "comment_length" (language_style p))%Z;
      [|apply appends_of_only, only_appends_ret].
    destruct (Float64.truediv (style_get "comment_length" (language_style p))
                (ODict.len (personality_traits p) + ODict.len (interests p)))
      as [avg|e].
    + exists ("- Average comment length: " +:+ Float64.format_1f avg
              +:+ " words" +:+ nl), (Ok tt).
      intros file. reflexivity.
    + exists "", (Raise e). intros file. unfold bind, lift.
      rewrite append_empty_r. reflexivity.
  - apply appends_of_only.
    repeat first
      [ apply only_appends_write
      | apply only_appends_when
      | apply only_appends_bind ].
Qed.

Lemma appends_after_activity (p : persona) :
  appends
    (write_language_style p ;;
     write_frequent_subreddits p ;;
     write (nl +:+ "=== END OF PERSONA ==="))%st.
Proof.
  apply appends_bind; [apply appends_language_style|].
  apply appends_of_only. unfold write_frequent_subreddits.
  repeat first
    [ apply only_appends_write
    | apply only_appends_bind
    | apply only_appends_for_each; intros ? ].
  destruct x as [name count]. apply only_appends_write.
Qed.

(** The report of a persona whose activity is all night: what comes
    before the activity section, that section, and what follows. *)
Lemma report_around_activity (p : persona) (n : Z) :
  (0 <= n)%Z ->
  activity_patterns p = night_only n ->
  exists before after r,
    generate_persona_file p "" = (before +:+ activity_section n +:+ after, r).
Proof.
  intros Hn Hp.
  destruct (only_appends_before_activity p) as [before Hbefore].
  destruct (appends_after_activity p) as (after & r & Hafter).
  exists before, after, r.
  unfold generate_persona_file, bind in *.
  specialize (Hbefore "").
  destruct (write ("=== REDDIT USER PERSONA ===" +:+ nl +:+ nl) "")
    as [f1 [[]|e1]]; [|discriminate].
  destruct (write_basic_information p f1) as [f2 [[]|e2]]; [|discriminate].
  destruct (write_top_interests p f2) as [f3 [[]|e3]]; [|discriminate].
  rewrite Hbefore. change ("" +:+ before) with before.
  rewrite (write_night_only p n before Hn Hp).
  rewrite Hafter, append_assoc. reflexivity.
Qed.

(** C10: every timestamp reaches the analysis as a date without a time of
    day, so the hour read from it is 0 and every item counts as night.
    When the analysis completes, the activity dictionary is empty if
    there was no item and holds the single key night, with the number of
    items, otherwise; the activity section of the report is then the one
    line "100.0% night", and no line if there was no item; and the report
    file holds that section whatever happens after it. *)
Theorem C10_all_activity_is_night
  (now : Datetime.datetime) (info : user_info) (p : persona) :
  analyze_persona now info = Ok p ->
  let n := Z.of_nat (length (comments info) + length (posts info)) in
  let section :=
    "== ACTIVITY PATTERNS ==" +:+ nl +:+
    (if decide (n = 0%Z) then ""
     else "- Most active during night: 100.0% of activity" +:+ nl) +:+ nl in
  (forall (timestamp : string) (dt : Datetime.datetime),
     Datetime.strptime_ymd timestamp = Ok dt ->
     Datetime.hour dt = 0%Z /\ bucket_of_hour (Datetime.hour dt) = "night") /\
  activity_patterns p = (if decide (n = 0%Z) then [] else [("night", n)]) /\
  (forall key, In key (ODict.keys (activity_patterns p)) -> key = "night") /\
  (forall file, write_activity_patterns p file = (file +:+ section, Ok tt)) /\
  (exists before after r,
     generate_persona_file p "" = (before +:+ section +:+ after, r)).
Proof.
  intros Hrun n section.
  pose proof (analyzed_activity now info p Hrun) as Hact. fold n in Hact.
  split; [|split; [|split; [|split]]].
  - intros timestamp dt Hparse.
    apply strptime_ymd_midnight in Hparse as (-> & _ & _). split; reflexivity.
  - exact Hact.
  - rewrite Hact. unfold night_only.
    destruct (decide (n = 0%Z)); simpl; intros key Hkey; [contradiction|].
    destruct Hkey as [<-|[]]. reflexivity.
  - intros file. apply write_night_only; [lia | exact Hact].
  - apply report_around_activity; [lia | exact Hact].
Qed.

(** ** Dates written by the fetcher parse back *)

Lemma digit_char_spec (d : Z) :
  (0 <= d <= 9)%Z ->
  Str.is_digit (Str.digit_char d) = true /\
  Datetime.digit_val (Str.digit_char d) = d.
Proof.
  intros Hd.
  assert (Hcases : (d = 0 \/ d = 1 \/ d = 2 \/ d = 3 \/ d = 4 \/ d = 5 \/ d = 6
                    \/ d = 7 \/ d = 8 \/ d = 9)%Z) by lia.
  repeat (destruct Hcases as [->|Hcases]; [now split|]).
  subst d. now split.
Qed.

(** A year of four digits is printed as those four digits. *)
Ltac lia_div := Z.div_mod_to_equations; lia.

Lemma of_nonneg_four_digits (y : Z) :
  (1000 <= y <= 9999)%Z ->
  Str.of_nonneg y =
  String (Str.digit_char (y / 1000))
    (String (Str.digit_char (y / 100 mod 10))
       (String (Str.digit_char (y / 10 mod 10))
          (String (Str.digit_char (y mod 10)) EmptyString))).
Proof.
  intros Hy. unfold Str.of_nonneg.
  assert (Hlog : (9 <= Z.log2 y)%Z).
  { apply Z.log2_le_pow2; [lia|]. change (2 ^ 9)%Z with 512%Z. lia. }
  destruct (Z.to_nat (Z.log2 y)) as [|[|[|fuel]]] eqn:Hfuel; try lia.
  cbn [Str.digits_go].
  destruct (Z.ltb_spec y 10) as [?|_]; [lia|].
  destruct (Z.ltb_spec (y / 10) 10) as [?|_]; [lia_div|].
  destruct (Z.ltb_spec (y / 10 / 10) 10) as [?|_]; [lia_div|].
  destruct (Z.ltb_spec (y / 10 / 10 / 10) 10) as [_|?]; [|lia_div].
  rewrite !Z.div_div by lia.
  change (10 * (10 * 10))%Z with 1000%Z. change (10 * 10)%Z with 100%Z.
  rewrite (Z.mod_small (y / 1000) 10) by lia_div.
  reflexivity.
Qed.

Lemma parse_Y_four_digits (a b c d : Z) (rest : string) :
  (0 <= a <= 9)%Z -> (0 <= b <= 9)%Z -> (0 <= c <= 9)%Z -> (0 <= d <= 9)%Z ->
  Datetime.parse_Y
    (String (Str.digit_char a) (String (Str.digit_char b)
       (String (Str.digit_char c) (String (Str.digit_char d) rest)))) =
  Some ((1000 * a + 100 * b + 10 * c + d)%Z, rest).
Proof.
  intros Ha Hb Hc Hd. unfold Datetime.parse_Y.
  destruct (digit_char_spec a Ha) as [-> ->].
  destruct (digit_char_spec b Hb) as [-> ->].
  destruct (digit_char_spec c Hc) as [-> ->].
  destruct (digit_char_spec d Hd) as [-> ->].
  reflexivity.
Qed.

Lemma parse_m_two_digits (m : Z) (rest : string) :
  (1 <= m <= 12)%Z ->
  Datetime.parse_m (Datetime.two_digits m +:+ String "-" rest) =
  Some (m, String "-" rest).
Proof.
  intros Hm.
  assert (Hcases : (m = 1 \/ m = 2 \/ m = 3 \/ m = 4 \/ m = 5 \/ m = 6 \/ m = 7
                    \/ m = 8 \/ m = 9 \/ m = 10 \/ m = 11 \/ m = 12)%Z) by lia.
  repeat (destruct Hcases as [->|Hcases]; [reflexivity|]).
  subst m. reflexivity.
Qed.

Lemma parse_d_two_digits (d : Z) :
  (1 <= d <= 31)%Z ->
  Datetime.parse_d (Datetime.two_digits d) = Some (d, EmptyString).
Proof.
  intros Hd.
  assert (Hcases : exists k : nat, (k < 31)%nat /\ d = (1 + Z.of_nat k)%Z).
  { exists (Z.to_nat (d - 1)). lia. }
  destruct Hcases as (k & Hk & ->).
  do 31 (destruct k as [|k]; [reflexivity|]). lia.
Qed.

Lemma days_in_month_le (y m : Z) : (Datetime.days_in_month y m <= 31)%Z.
Proof.
  unfold Datetime.days_in_month.
  repeat match goal with |- context [if ?b then _ else _] => destruct b end; lia.
Qed.

(** [strptime(dt.strftime('%Y-%m-%d'), '%Y-%m-%d')] is the midnight of
    the day of [dt]. *)
Lemma strptime_strftime (dt : Datetime.datetime) :
  printable dt = true ->
  Datetime.strptime_ymd (Datetime.strftime_ymd dt) =
  Ok (Datetime.mk_datetime (Datetime.year dt) (Datetime.month dt)
        (Datetime.day dt) 0 0 0).
Proof.
  unfold printable, Datetime.valid. intros Hdt.
  do 7 (apply andb_prop in Hdt as [Hdt ?]).
  assert (Hvalid := Hdt). unfold Datetime.valid_date in Hdt.
  repeat (apply andb_prop in Hdt as [Hdt ?]).
  pose proof (days_in_month_le (Datetime.year dt) (Datetime.month dt)).
  set (y := Datetime.year dt) in *. set (m := Datetime.month dt) in *.
  set (d := Datetime.day dt) in *.
  unfold Datetime.strptime_ymd, Datetime.strftime_ymd. fold y m d.
  rewrite of_nonneg_four_digits by lia.
  repeat (rewrite append_cons || rewrite append_nil).
  rewrite parse_Y_four_digits by lia_div.
  replace (1000 * (y / 1000) + 100 * (y / 100 mod 10) + 10 * (y / 10 mod 10)
           + y mod 10)%Z with y by lia_div.
  cbn [Datetime.expect_dash]. change (Str.code "-" =? 45)%N with true. cbv iota.
  rewrite parse_m_two_digits by lia.
  change (Datetime.expect_dash (String "-" (Datetime.two_digits d)))
    with (Some (Datetime.two_digits d)). cbv iota.
  rewrite parse_d_two_digits by lia.
  rewrite Hvalid. reflexivity.
Qed.

(** ** The analysis completes on what the fetcher delivers *)

Lemma for_each_completes {S A} (body : A -> ST S unit) (good : A -> Prop)
  (l : list A) :
  (forall x s, good x -> exists s', body x s = (s', Ok tt)) ->
  List.Forall good l ->
  forall s, exists s', for_each l body s = (s', Ok tt).
Proof.
  intros Hbody. induction 1 as [|x l Hx Hl IH]; intros s; simpl.
  - exists s. reflexivity.
  - unfold bind. destruct (Hbody x s Hx) as [s1 ->]. apply IH.
Qed.

Lemma analyze_comment_item_completes (comment : Comment.t) (p : persona) :
  comment_dated comment -> exists p', analyze_comment_item comment p = (p', Ok tt).
Proof.
  intros [dt Hdt]. rewrite analyze_comment_item_run, analyze_activity_time_run, Hdt.
  eexists. reflexivity.
Qed.

Lemma analyze_post_item_completes (post : Post.t) (p : persona) :
  post_dated post -> exists p', analyze_post_item post p = (p', Ok tt).
Proof.
  intros [dt Hdt]. rewrite analyze_post_item_run, analyze_activity_time_run, Hdt.
  eexists. reflexivity.
Qed.

(** The analysis completes when every timestamp parses. *)
Lemma analyze_persona_completes (now : Datetime.datetime) (info : user_info) :
  (exists dt, Datetime.strptime_ymd (created_utc info) = Ok dt) ->
  List.Forall comment_dated (comments info) ->
  List.Forall post_dated (posts info) ->
  exists p, analyze_persona now info = Ok p.
Proof.
  intros [dt Hdt] Hcomments Hposts.
  unfold analyze_persona, _calculate_account_age. rewrite Hdt.
  unfold analyze_loops, bind.
  match goal with
  | |- context [for_each (comments info) analyze_comment_item ?s0] =>
      destruct (for_each_completes analyze_comment_item comment_dated
                  (comments info) analyze_comment_item_completes
                  Hcomments s0) as [p1 ->]
  end.
  destruct (for_each_completes analyze_post_item post_dated (posts info)
              analyze_post_item_completes Hposts p1)
    as [p2 ->].
  eexists. reflexivity.
Qed.

(** For every account found, with dates of four-digit years, the fetch
    yields the user information, of at most 100 comments and 50 posts,
    and the analysis of it completes. *)
Lemma fetched_analysis_completes (reddit : string -> Praw.response)
  (now : Datetime.datetime) (name : string) (user : Praw.redditor)
  (trace : list event) :
  reddit name = Praw.Found user ->
  well_dated user ->
  exists (info : user_info) (p : persona),
    extract_user_info reddit name trace = (trace ++ [Fetch name], Ok (Some info)) /\
    (length (comments info) <= 100)%nat /\
    (length (posts info) <= 50)%nat /\
    analyze_persona now info = Ok p.
Proof.
  intros Hfound (Hcreated & Hcomments & Hposts).
  unfold extract_user_info, bind, emit, modify. rewrite Hfound. unfold ret.
  match goal with
  | |- context [Ok (Some ?i)] => set (info := i)
  end.
  destruct (analyze_persona_completes now info) as [p Hp].
  - eexists. apply strptime_strftime, Hcreated.
  - apply List.Forall_map. unfold Praw.new.
    apply Forall_take with (n := 100%nat) in Hcomments.
    revert Hcomments. apply List.Forall_impl. intros c Hc.
    eexists. apply strptime_strftime, Hc.
  - apply List.Forall_map. unfold Praw.new.
    apply Forall_take with (n := 50%nat) in Hposts.
    revert Hposts. apply List.Forall_impl. intros s Hs.
    eexists. apply strptime_strftime, Hs.
  - exists info, p. split; [reflexivity|].
    subst info. cbn [comments posts]. unfold Praw.new.
    rewrite !length_map, !length_take. repeat split; [lia | lia | exact Hp].
Qed.

Lemma C10_witness :
  exists p, analyze_persona sample_now sample_info = Ok p /\
    activity_patterns p = [("night", 4%Z)] /\
    write_activity_patterns p "" =
      ("== ACTIVITY PATTERNS ==" +:+ nl +:+
       "- Most active during night: 100.0% of activity" +:+ nl +:+ nl, Ok tt).
Proof.
  eexists. split; [vm_compute; reflexivity|].
  pose proof (C10_all_activity_is_night sample_now sample_info _
                ltac:(vm_compute; reflexivity)) as (_ & Hact & _ & Hfile & _).
  split; [exact Hact | exact (Hfile "")].
Defined.

(** ** The report of an account without activity *)

Lemma analyzed_without_items (now : Datetime.datetime) (info : user_info)
  (p : persona) :
  comments info = [] -> posts info = [] ->
  analyze_persona now info = Ok p ->
  exists age : string,
    _calculate_account_age now (created_utc info) = Ok age /\
    p = new_persona
          [("Username", VStr (username info)); ("Account Age", VStr age);
           ("Comment Karma", VInt (comment_karma info));
           ("Post Karma", VInt (link_karma info));
           ("Premium Member", VBool (is_gold info))].
Proof.
  intros Hc Hp Hrun.
  destruct (analyze_persona_inv now info p Hrun) as (age & p1 & p2 & Hage & H1 & H2 & ->).
  rewrite Hc in H1. rewrite Hp in H2. simpl in H1, H2. unfold ret in H1, H2.
  injection H1 as <-. injection H2 as <-.
  exists age. split; [exact Hage | reflexivity].
Qed.

(** With the three counters at zero the section is its heading. *)
Lemma write_language_style_silent (p : persona) (file : string) :
  style_get "comment_length" (language_style p) = 0%Z ->
  style_get "exclamation_use" (language_style p) = 0%Z ->
  style_get "self_reference" (language_style p) = 0%Z ->
  write_language_style p file =
  (file +:+ "== LANGUAGE STYLE ==" +:+ nl +:+ nl, Ok tt).
Proof.
  intros Hw Hx Hs. unfold write_language_style. rewrite Hw, Hx, Hs.
  change (0 <? 0)%Z with false.
  unfold bind, write, modify, when, ret.
  rewrite !append_assoc. reflexivity.
Qed.

(** C5: for a persona built from no comment and no post the report is
    written to the end without an exception.  The activity dictionary is
    empty, so its total is zero and the loop that divides by it has
    nothing to run on; the activity section and the language-style section
    consist of their heading and the blank line after it. *)
Theorem C5_report_of_empty_account
  (now : Datetime.datetime) (info : user_info) (p : persona) :
  comments info = [] -> posts info = [] ->
  analyze_persona now info = Ok p ->
  (generate_persona_file p "").2 = Ok tt /\
  activity_patterns p = [] /\
  sum_values (activity_patterns p) = 0%Z /\
  (forall file,
     write_activity_patterns p file =
     (file +:+ "== ACTIVITY PATTERNS ==" +:+ nl +:+ nl, Ok tt)) /\
  (forall file,
     write_language_style p file =
     (file +:+ "== LANGUAGE STYLE ==" +:+ nl +:+ nl, Ok tt)).
Proof.
  intros Hc Hp Hrun.
  destruct (analyzed_without_items now info p Hc Hp Hrun) as (age & _ & ->).
  split; [reflexivity|].
  split; [reflexivity|].
  split; [reflexivity|].
  split; intros file.
  - apply (write_night_only _ 0%Z); [lia | reflexivity].
  - apply write_language_style_silent; reflexivity.
Qed.

Lemma C5_witness :
  exists p, analyze_persona sample_now empty_account = Ok p /\
    (generate_persona_file p "").2 = Ok tt.
Proof.
  eexists. split; [vm_compute; reflexivity|].
  apply (C5_report_of_empty_account sample_now empty_account);
    [reflexivity | reflexivity | vm_compute; reflexivity].
Defined.

(** ** The average line of the language-style section *)

(** The guard of the average line looks at the word total only: with a
    positive total and no category hit, the division raises. *)
Lemma write_language_style_unguarded (p : persona) (file : string) :
  (0 < style_get "comment_length" (language_style p))%Z ->
  personality_traits p = [] -> interests p = [] ->
  write_language_style p file =
  (file +:+ "== LANGUAGE STYLE ==" +:+ nl, Raise ZeroDivisionError).
Proof.
  intros Hwords Ht Hi. unfold write_language_style.
  apply Z.ltb_lt in Hwords. rewrite Hwords, Ht, Hi.
  unfold bind, write, modify, lift. reflexivity.
Qed.

(** C1, on the code: the account whose only activity is the comment
    "hello world" is fetched and analysed without an error; its persona
    has a word total of 2 and no interest or trait category, and
    [generate_persona_file] raises [ZeroDivisionError] on it in the
    language-style section.  The run ends with that exception, the report
    file cut after the heading of the section. *)
Theorem C1_average_line_divides_by_zero :
  extract_user_info hello_reddit "bob" [] = ([Fetch "bob"], Ok (Some hello_account)) /\
  exists p : persona,
    analyze_persona sample_now hello_account = Ok p /\
    style_get "comment_length" (language_style p) = 2%Z /\
    ODict.len (personality_traits p) = 0%Z /\
    ODict.len (interests p) = 0%Z /\
    (generate_persona_file p "").2 = Raise ZeroDivisionError /\
    (forall file,
       write_language_style p file =
       (file +:+ "== LANGUAGE STYLE ==" +:+ nl, Raise ZeroDivisionError)) /\
    (main hello_reddit sample_now "https://www.reddit.com/user/bob/" []).2
      = Raise ZeroDivisionError /\
    file_written
      (main hello_reddit sample_now "https://www.reddit.com/user/bob/" []).1 = true.
Proof.
  split; [vm_compute; reflexivity|].
  eexists. split; [vm_compute; reflexivity|].
  split; [vm_compute; reflexivity|].
  split; [reflexivity|]. split; [reflexivity|].
  split; [vm_compute; reflexivity|].
  split.
  { intros file. apply write_language_style_unguarded;
      [vm_compute; reflexivity | reflexivity | reflexivity]. }
  split; vm_compute; reflexivity.
Qed.

(** * Further properties *)

(** ** Timestamps *)

(** X1: a date the fetcher writes with [strftime('%Y-%m-%d')] is a text
    of ten characters that the [strptime] of the analysis accepts; what it
    reads back is the same day at midnight, the time of day being lost. *)
Theorem X1_written_dates_parse_back (dt : Datetime.datetime) :
  printable dt = true ->
  Datetime.strptime_ymd (Datetime.strftime_ymd dt) =
    Ok (Datetime.mk_datetime (Datetime.year dt) (Datetime.month dt)
          (Datetime.day dt) 0 0 0) /\
  String.length (Datetime.strftime_ymd dt) = 10%nat /\
  (forall h m s,
     Datetime.strftime_ymd
       (Datetime.mk_datetime (Datetime.year dt) (Datetime.month dt)
          (Datetime.day dt) h m s) = Datetime.strftime_ymd dt).
Proof.
  intros Hdt. split; [apply strptime_strftime, Hdt|]. split; [|reflexivity].
  unfold printable, Datetime.valid in Hdt.
  do 7 (apply andb_prop in Hdt as [Hdt ?]).
  unfold Datetime.valid_date in Hdt.
  repeat (apply andb_prop in Hdt as [Hdt ?]).
  unfold Datetime.strftime_ymd.
  rewrite of_nonneg_four_digits by lia. reflexivity.
Qed.

Lemma X1_witness :
  Datetime.strptime_ymd (Datetime.strftime_ymd sample_day) =
    Ok (Datetime.mk_datetime 2024 3 9 0 0 0).
Proof.
  apply (X1_written_dates_parse_back sample_day). reflexivity.
Defined.

(** ** The outcome of the analysis *)

Lemma strptime_raises_value_error (s : string) (e : exn) :
  Datetime.strptime_ymd s = Raise e -> e = ValueError.
Proof.
  unfold Datetime.strptime_ymd. intros H.
  repeat match type of H with
         | match ?x with _ => _ end = _ => destruct x; try discriminate
         | (if ?x then _ else _) = _ => destruct x; try discriminate
         end;
  injection H as <-; reflexivity.
Qed.

Lemma activity_time_outcome (timestamp : string) (p : persona) :
  (_analyze_activity_time timestamp p).2 =
  if parses timestamp then Ok tt else Raise ValueError.
Proof.
  rewrite analyze_activity_time_run. unfold parses.
  destruct (Datetime.strptime_ymd timestamp) as [dt|e] eqn:Hparse; simpl.
  - reflexivity.
  - apply strptime_raises_value_error in Hparse as ->. reflexivity.
Qed.

(** A loop whose steps complete or raise [ValueError] according to a test
    on the item completes when all items pass, and raises otherwise. *)
Lemma for_each_outcome {S A} (body : A -> ST S unit) (good : A -> bool) :
  (forall x s, (body x s).2 = if good x then Ok tt else Raise ValueError) ->
  forall l s,
    (for_each l body s).2 = if forallb good l then Ok tt else Raise ValueError.
Proof.
  intros Hbody. induction l as [|x l IH]; intros s; simpl.
  - reflexivity.
  - unfold bind. specialize (Hbody x s).
    destruct (body x s) as [s1 r]. simpl in Hbody. subst r.
    destruct (good x); simpl; [apply IH | reflexivity].
Qed.

(** X2: [analyze_persona] completes when the account date and the
    timestamp of every comment and post are dates [strptime] accepts; if
    one of them is not, it raises [ValueError], and it raises nothing
    else. *)
Theorem X2_analysis_completes_or_value_error
  (now : Datetime.datetime) (info : user_info) :
  if all_dated info
  then exists p, analyze_persona now info = Ok p
  else analyze_persona now info = Raise ValueError.
Proof.
  unfold all_dated, analyze_persona, _calculate_account_age.
  unfold parses at 1.
  destruct (Datetime.strptime_ymd (created_utc info)) as [dt|e] eqn:Hage; simpl.
  2:{ apply strptime_raises_value_error in Hage as ->. reflexivity. }
  unfold analyze_loops, bind.
  match goal with
  | |- context [for_each (comments info) analyze_comment_item ?s0] =>
      pose proof (for_each_outcome analyze_comment_item
                    (fun c => parses (Comment.created_utc c))
                    (fun c s => eq_trans
                       (f_equal snd (analyze_comment_item_run c s))
                       (activity_time_outcome _ _))
                    (comments info) s0) as H1;
      destruct (for_each (comments info) analyze_comment_item s0) as [p1 r1]
  end.
  change (r1 = if forallb (fun c => parses (Comment.created_utc c)) (comments info)
               then Ok tt else Raise ValueError) in H1.
  subst r1.
  destruct (forallb (fun c => parses (Comment.created_utc c)) (comments info));
    simpl; [|reflexivity].
  pose proof (for_each_outcome analyze_post_item
                (fun po => parses (Post.created_utc po))
                (fun po s => eq_trans
                   (f_equal snd (analyze_post_item_run po s))
                   (activity_time_outcome _ _))
                (posts info) p1) as H2.
  destruct (for_each (posts info) analyze_post_item p1) as [p2 r2].
  change (r2 = if forallb (fun po => parses (Post.created_utc po)) (posts info)
               then Ok tt else Raise ValueError) in H2.
  subst r2.
  destruct (forallb (fun po => parses (Post.created_utc po)) (posts info));
    simpl; [|reflexivity].
  eexists. reflexivity.
Qed.

(** ** The account age *)

(** The days between a moment and an earlier or later midnight are the
    difference of the day numbers. *)
Lemma days_between_midnight (now created : Datetime.datetime) :
  valid_time now = true ->
  Datetime.hour created = 0%Z -> Datetime.minute created = 0%Z ->
  Datetime.second created = 0%Z ->
  Datetime.days_between now created =
  (Datetime.toordinal now - Datetime.toordinal created)%Z.
Proof.
  unfold valid_time. intros Hnow Hh Hm Hs.
  repeat (apply andb_prop in Hnow as [Hnow ?]).
  unfold Datetime.days_between. rewrite Hh, Hm, Hs.
  set (delta := (Datetime.toordinal now - Datetime.toordinal created)%Z).
  lia_div.
Qed.

(** X3: [_calculate_account_age] raises [ValueError] on a text that is not
    a date; on a date it answers "Y years, M months" where, for the number
    of days from that date to today, Y is the number of whole 365-day
    years and M the number of whole 30-day months in the rest.  There is
    no calendar in it: M runs from 0 to 12, and an account 360 days old is
    "0 years, 12 months". *)
Theorem X3_account_age_in_365_and_30_day_units
  (now : Datetime.datetime) (created_date : string) :
  valid_time now = true ->
  match Datetime.strptime_ymd created_date with
  | Ok created =>
      exists years months : Z,
        _calculate_account_age now created_date =
          Ok (Str.of_Z years +:+ " years, " +:+ Str.of_Z months +:+ " months") /\
        let days := (Datetime.toordinal now - Datetime.toordinal created)%Z in
        (365 * years + 30 * months <= days < 365 * years + 30 * months + 30)%Z /\
        (days < 365 * (years + 1))%Z /\
        (0 <= months <= 12)%Z
  | Raise _ => _calculate_account_age now created_date = Raise ValueError
  end /\
  _calculate_account_age (Datetime.mk_datetime 2025 1 10 8 0 0) "2024-01-16"
    = Ok "0 years, 12 months".
Proof.
  intros Hnow. split; [|vm_compute; reflexivity].
  unfold _calculate_account_age.
  destruct (Datetime.strptime_ymd created_date) as [created|e] eqn:Hparse.
  - apply strptime_ymd_midnight in Hparse as (Hh & Hm & Hs).
    rewrite (days_between_midnight now created Hnow Hh Hm Hs).
    set (days := (Datetime.toordinal now - Datetime.toordinal created)%Z).
    exists (days / 365)%Z, (days mod 365 / 30)%Z.
    split; [reflexivity|]. cbv zeta. lia_div.
  - apply strptime_raises_value_error in Hparse as ->. reflexivity.
Qed.

Lemma X3_witness :
  exists years months : Z,
    _calculate_account_age sample_now "2020-01-15" =
      Ok (Str.of_Z years +:+ " years, " +:+ Str.of_Z months +:+ " months") /\
    (0 <= months <= 12)%Z.
Proof.
  destruct (X3_account_age_in_365_and_30_day_units sample_now "2020-01-15"
              ltac:(reflexivity)) as [H _].
  vm_compute Datetime.strptime_ymd in H.
  destruct H as (years & months & Hage & _ & _ & Hmonths).
  exists years, months. split; assumption.
Defined.

(** ** Dictionaries under the loops *)

Lemma for_each_invariant {S A} (body : A -> ST S unit) (inv : S -> Prop) :
  (forall x s s', inv s -> body x s = (s', Ok tt) -> inv s') ->
  forall l s s', inv s -> for_each l body s = (s', Ok tt) -> inv s'.
Proof.
  intros Hbody. induction l as [|x l IH]; intros s s' Hs Hrun; simpl in Hrun.
  - unfold ret in Hrun. congruence.
  - unfold bind in Hrun. destruct (body x s) as [s1 [[]|e]] eqn:Hx; [|discriminate].
    eauto.
Qed.

Lemma odict_get_none_keys {V} (k : string) (d : ODict.t V) :
  ODict.get k d = None <-> ~ In k (ODict.keys d).
Proof.
  unfold ODict.keys. induction d as [|[k' v] d IH]; simpl.
  - tauto.
  - destruct (decide (k' = k)) as [->|Hne].
    + split; [discriminate | intros H; exfalso; apply H; left; reflexivity].
    + rewrite IH. tauto.
Qed.

Lemma odict_update_nodup {V} (dflt : V) (f : V -> V) (k : string) (d : ODict.t V) :
  List.NoDup (ODict.keys d) -> List.NoDup (ODict.keys (ODict.update dflt f k d)).
Proof.
  intros Hd. rewrite odict_keys_update.
  destruct (ODict.get k d) eqn:Hget; [exact Hd|].
  apply odict_get_none_keys in Hget.
  apply List.NoDup_app; [exact Hd | repeat constructor; intros [] |].
  intros a Ha [<-|[]]. contradiction.
Qed.

Lemma odict_update_values {V} (good : V -> Prop) (dflt : V) (f : V -> V)
  (k : string) (d : ODict.t V) :
  good (f dflt) -> (forall v, good v -> good (f v)) ->
  List.Forall good (ODict.values d) ->
  List.Forall good (ODict.values (ODict.update dflt f k d)).
Proof.
  intros Hdflt Hf. unfold ODict.values.
  induction d as [|[k' v] d IH]; simpl; intros Hd.
  - constructor; [exact Hdflt | constructor].
  - inversion Hd as [|? ? Hv Hd']; subst.
    destruct (decide (k' = k)); simpl; constructor; auto.
Qed.

Lemma odict_update_keys_incl {V} (dflt : V) (f : V -> V) (k : string)
  (names : list string) (d : ODict.t V) :
  In k names -> incl (ODict.keys d) names ->
  incl (ODict.keys (ODict.update dflt f k d)) names.
Proof.
  intros Hk Hd. rewrite odict_keys_update.
  destruct (ODict.get k d); [exact Hd|].
  intros x Hx. apply in_app_or in Hx as [Hx|[<-|[]]]; auto.
Qed.

Lemma sum_values_update_succ (k : string) (d : ODict.t Z) :
  sum_values (ODict.update 0%Z Z.succ k d) = (sum_values d + 1)%Z.
Proof.
  unfold sum_values, ODict.values.
  induction d as [|[k' v] d IH]; simpl.
  - reflexivity.
  - destruct (decide (k' = k)); simpl; [lia | rewrite IH; lia].
Qed.

(** What one completed or interrupted step leaves under
    [frequent_subreddits]. *)
Lemma comment_item_subreddits (comment : Comment.t) (p : persona) :
  frequent_subreddits (analyze_comment_item comment p).1 =
  ODict.update 0%Z Z.succ (Comment.subreddit comment) (frequent_subreddits p).
Proof.
  rewrite analyze_comment_item_run.
  destruct (analyze_activity_time_frame (Comment.created_utc comment)
              (count_subreddit (Comment.subreddit comment)
                 (_analyze_comment comment p).1).1) as (_ & _ & -> & _).
  destruct (analyze_comment_effect comment p) as (_ & _ & _ & Hs & _).
  cbv zeta in Hs. unfold count_subreddit, modify; simpl. rewrite Hs. reflexivity.
Qed.

Lemma post_item_subreddits (post : Post.t) (p : persona) :
  frequent_subreddits (analyze_post_item post p).1 =
  ODict.update 0%Z Z.succ (Post.subreddit post) (frequent_subreddits p).
Proof.
  rewrite analyze_post_item_run.
  destruct (analyze_activity_time_frame (Post.created_utc post)
              (count_subreddit (Post.subreddit post)
                 (_analyze_post post p).1).1) as (_ & _ & -> & _).
  destruct (analyze_post_effect post p) as (_ & _ & _ & Hs & _).
  cbv zeta in Hs. unfold count_subreddit, modify; simpl. rewrite Hs. reflexivity.
Qed.

(** The loops of a completed analysis, and the persona they leave before
    the rankings are added. *)
Lemma analyzed_loops (now : Datetime.datetime) (info : user_info) (p : persona) :
  analyze_persona now info = Ok p ->
  exists p0 p1 p2 : persona,
    interests p0 = [] /\ personality_traits p0 = [] /\
    frequent_subreddits p0 = [] /\
    for_each (comments info) analyze_comment_item p0 = (p1, Ok tt) /\
    for_each (posts info) analyze_post_item p1 = (p2, Ok tt) /\
    interests p = interests p2 /\
    personality_traits p = personality_traits p2 /\
    frequent_subreddits p = frequent_subreddits p2 /\
    language_style p = language_style p2 /\
    top_interests p = top5 citation_count (interests p2) /\
    top_subreddits p = top5 interaction_count (frequent_subreddits p2).
Proof.
  intros Hrun.
  destruct (analyze_persona_inv now info p Hrun) as (age & p1 & p2 & _ & H1 & H2 & ->).
  eexists _, p1, p2. repeat split; try eassumption; reflexivity.
Qed.

(** An invariant of both loop bodies holds after the two loops. *)
Lemma loops_invariant (inv : persona -> Prop) (info : user_info)
  (p0 p1 p2 : persona) :
  (forall x s s', inv s -> analyze_comment_item x s = (s', Ok tt) -> inv s') ->
  (forall x s s', inv s -> analyze_post_item x s = (s', Ok tt) -> inv s') ->
  inv p0 ->
  for_each (comments info) analyze_comment_item p0 = (p1, Ok tt) ->
  for_each (posts info) analyze_post_item p1 = (p2, Ok tt) ->
  inv p2.
Proof.
  intros Hc Hp H0 H1 H2.
  apply (for_each_invariant analyze_post_item inv Hp (posts info) p1 p2); [|exact H2].
  apply (for_each_invariant analyze_comment_item inv Hc (comments info) p0 p1);
    assumption.
Qed.

(** ** The subreddit counts *)

Lemma fold_left_sum_over {A} (f : A -> Z) (l : list A) (acc : Z) :
  fold_left (fun acc x => (acc + f x)%Z) l acc = (acc + sum_over f l)%Z.
Proof.
  revert acc. induction l as [|x l IH]; intros acc; simpl.
  - lia.
  - rewrite IH. unfold sum_over. simpl. lia.
Qed.

Lemma sum_over_ones {A} (l : list A) :
  sum_over (fun _ => 1%Z) l = Z.of_nat (length l).
Proof.
  unfold sum_over. induction l as [|x l IH]; [reflexivity|].
  simpl foldr. simpl length. rewrite IH. lia.
Qed.

Lemma interactions_update (name k : string) (d : ODict.t Z) :
  interactions name (ODict.update 0%Z Z.succ k d) =
  (interactions name d + Z.b2z (bool_decide (k = name)))%Z.
Proof.
  unfold interactions. rewrite odict_get_default_update.
  destruct (decide (k = name)) as [->|Hne].
  - rewrite bool_decide_eq_true_2 by reflexivity. simpl. lia.
  - rewrite bool_decide_eq_false_2 by assumption. simpl. lia.
Qed.

Lemma subreddit_keys_nodup (now : Datetime.datetime) (info : user_info)
  (p : persona) :
  analyze_persona now info = Ok p ->
  List.NoDup (ODict.keys (frequent_subreddits p)).
Proof.
  intros Hrun.
  destruct (analyzed_loops now info p Hrun)
    as (p0 & p1 & p2 & _ & _ & H0 & H1 & H2 & _ & _ & -> & _).
  apply (loops_invariant
           (fun s => List.NoDup (ODict.keys (frequent_subreddits s)))
           info p0 p1 p2); [| | rewrite H0; constructor | exact H1 | exact H2].
  - intros x s s' Hs Hx. change s' with (s', Ok tt : result unit).1.
    rewrite <- Hx, comment_item_subreddits. apply odict_update_nodup, Hs.
  - intros x s s' Hs Hx. change s' with (s', Ok tt : result unit).1.
    rewrite <- Hx, post_item_subreddits. apply odict_update_nodup, Hs.
Qed.

(** X4: when the analysis completes, the count kept for a subreddit is the
    number of comments plus the number of posts made in it, so the counts
    add up to the number of items analysed; a subreddit has one entry
    only, and no entry has a count below 1. *)
Theorem X4_subreddit_counts_count_items
  (now : Datetime.datetime) (info : user_info) (p : persona) :
  analyze_persona now info = Ok p ->
  (forall name,
     interactions name (frequent_subreddits p) =
     (sum_over (comment_in name) (comments info)
      + sum_over (post_in name) (posts info))%Z) /\
  sum_values (frequent_subreddits p) =
    Z.of_nat (length (comments info) + length (posts info)) /\
  List.NoDup (ODict.keys (frequent_subreddits p)) /\
  List.Forall (fun n => (1 <= n)%Z) (ODict.values (frequent_subreddits p)).
Proof.
  intros Hrun.
  pose proof (subreddit_keys_nodup now info p Hrun) as Hnodup.
  destruct (analyzed_loops now info p Hrun)
    as (p0 & p1 & p2 & _ & _ & H0 & H1 & H2 & _ & _ & Hs & _).
  rewrite Hs in Hnodup |- *. clear Hs.
  assert (Hc : forall x s s', analyze_comment_item x s = (s', Ok tt) ->
            frequent_subreddits s' =
            ODict.update 0%Z Z.succ (Comment.subreddit x) (frequent_subreddits s)).
  { intros x s s' Hx. rewrite <- comment_item_subreddits, Hx. reflexivity. }
  assert (Hp : forall x s s', analyze_post_item x s = (s', Ok tt) ->
            frequent_subreddits s' =
            ODict.update 0%Z Z.succ (Post.subreddit x) (frequent_subreddits s)).
  { intros x s s' Hx. rewrite <- post_item_subreddits, Hx. reflexivity. }
  split; [|split; [|split]].
  - intros name.
    apply (for_each_observe analyze_comment_item
             (fun s => interactions name (frequent_subreddits s))
             (fun c acc => (acc + comment_in name c)%Z)) in H1.
    2:{ intros x s s' Hx. rewrite (Hc x s s' Hx). apply interactions_update. }
    apply (for_each_observe analyze_post_item
             (fun s => interactions name (frequent_subreddits s))
             (fun po acc => (acc + post_in name po)%Z)) in H2.
    2:{ intros x s s' Hx. rewrite (Hp x s s' Hx). apply interactions_update. }
    rewrite H2, H1, H0, !fold_left_sum_over. reflexivity.
  - apply (for_each_observe analyze_comment_item
             (fun s => sum_values (frequent_subreddits s))
             (fun _ acc => (acc + 1)%Z)) in H1.
    2:{ intros x s s' Hx. rewrite (Hc x s s' Hx). apply sum_values_update_succ. }
    apply (for_each_observe analyze_post_item
             (fun s => sum_values (frequent_subreddits s))
             (fun _ acc => (acc + 1)%Z)) in H2.
    2:{ intros x s s' Hx. rewrite (Hp x s s' Hx). apply sum_values_update_succ. }
    rewrite H2, H1, H0, !fold_left_sum_over, !sum_over_ones.
    change (sum_values []) with 0%Z. lia.
  - exact Hnodup.
  - assert (Hstep : forall k d,
              List.Forall (fun n => (1 <= n)%Z) (ODict.values d) ->
              List.Forall (fun n => (1 <= n)%Z)
                (ODict.values (ODict.update 0%Z Z.succ k d))).
    { intros k d. apply odict_update_values; [lia | intros; lia]. }
    apply (loops_invariant
             (fun s => List.Forall (fun n => (1 <= n)%Z)
                         (ODict.values (frequent_subreddits s)))
             info p0 p1 p2); [| | rewrite H0; constructor | exact H1 | exact H2].
    + intros x s s' Hs Hx. rewrite (Hc x s s' Hx). apply Hstep, Hs.
    + intros x s s' Hs Hx. rewrite (Hp x s s' Hx). apply Hstep, Hs.
Qed.

Lemma X4_witness :
  exists p, analyze_persona sample_now two_comments = Ok p /\
    sum_values (frequent_subreddits p) = 3%Z.
Proof.
  eexists. split; [vm_compute; reflexivity|].
  apply (X4_subreddit_counts_count_items sample_now two_comments).
  vm_compute. reflexivity.
Defined.

(** ** The citation lists *)

(** The citations [_analyze_comment] makes, test by test. *)
Lemma analyze_comment_citations (comment : Comment.t) (p : persona) :
  let text := comment_text comment in
  let url := Comment.permalink comment in
  let p' := (_analyze_comment comment p).1 in
  interests p' =
    cite_if (Str.any_in ["movie"; "film"; "netflix"; "hbo"] text) "movies" url
      (cite_if (Str.any_in ["game"; "gaming"; "playstation"; "xbox"] text) "gaming" url
         (cite_if (Str.any_in ["python"; "javascript"; "java"; "c++"] text)
            "programming" url (interests p))) /\
  personality_traits p' =
    cite_if (Str.any_in ["thanks"; "thank you"; "appreciate"] text) "polite" url
      (cite_if (Str.contains "?" text) "inquisitive" url
         (cite_if (Str.any_in ["i think"; "in my opinion"] text) "opinionated" url
            (personality_traits p))).
Proof.
  intros text url p'. subst p'. unfold _analyze_comment.
  fold (comment_text comment). fold text. fold url.
  generalize (Str.any_in ["python"; "javascript"; "java"; "c++"] text) as b1.
  generalize (Str.any_in ["game"; "gaming"; "playstation"; "xbox"] text) as b2.
  generalize (Str.any_in ["movie"; "film"; "netflix"; "hbo"] text) as b3.
  generalize (Str.any_in ["i think"; "in my opinion"] text) as b4.
  generalize (Str.contains "?" text) as b5.
  generalize (Str.any_in ["thanks"; "thank you"; "appreciate"] text) as b6.
  generalize (word_count text) as n.
  generalize (Str.contains "!" text) as b8.
  generalize (Re.search_whole_word self_reference_words text) as b9.
  intros b9 b8 n b6 b5 b4 b3 b2 b1.
  split; destruct b1, b2, b3, b4, b5, b6, b8, b9; reflexivity.
Qed.

Lemma analyze_post_citations (post : Post.t) (p : persona) :
  let text := post_text post in
  let url := Post.permalink post in
  let p' := (_analyze_post post p).1 in
  interests p' =
    cite_if (Str.any_in ["discussion"; "debate"; "opinion"] text) "discussions" url
      (cite_if (Str.any_in ["help"; "advice"; "suggestion"] text) "help_seeking" url
         (interests p)) /\
  personality_traits p' =
    cite_if (Str.contains "?" (Post.title post)) "inquisitive" url
      (personality_traits p).
Proof.
  intros text url p'. subst p'. unfold _analyze_post.
  fold (post_text post). fold text. fold url.
  generalize (Str.any_in ["help"; "advice"; "suggestion"] text) as b1.
  generalize (Str.any_in ["discussion"; "debate"; "opinion"] text) as b2.
  generalize (Str.contains "?" (Post.title post)) as b3.
  intros b3 b2 b1.
  split; destruct b1, b2, b3; reflexivity.
Qed.

(** The citations survive the rest of the step. *)
Lemma comment_item_citations (comment : Comment.t) (p : persona) :
  interests (analyze_comment_item comment p).1 =
    interests (_analyze_comment comment p).1 /\
  personality_traits (analyze_comment_item comment p).1 =
    personality_traits (_analyze_comment comment p).1.
Proof.
  rewrite analyze_comment_item_run.
  destruct (analyze_activity_time_frame (Comment.created_utc comment)
              (count_subreddit (Comment.subreddit comment)
                 (_analyze_comment comment p).1).1) as (-> & -> & _).
  split; reflexivity.
Qed.

Lemma post_item_citations (post : Post.t) (p : persona) :
  interests (analyze_post_item post p).1 = interests (_analyze_post post p).1 /\
  personality_traits (analyze_post_item post p).1 =
    personality_traits (_analyze_post post p).1.
Proof.
  rewrite analyze_post_item_run.
  destruct (analyze_activity_time_frame (Post.created_utc post)
              (count_subreddit (Post.subreddit post)
                 (_analyze_post post p).1).1) as (-> & -> & _).
  split; reflexivity.
Qed.

Lemma cites_cite_if (b : bool) (category c url : string) (d : ODict.t (list string)) :
  cites c (cite_if b category url d) =
  cites c d ++ (if b && bool_decide (category = c) then [url] else []).
Proof.
  destruct b; simpl.
  - unfold cites. rewrite odict_get_default_update.
    destruct (decide (category = c)) as [->|Hne].
    + rewrite bool_decide_eq_true_2 by reflexivity. reflexivity.
    + rewrite bool_decide_eq_false_2 by assumption. rewrite app_nil_r. reflexivity.
  - rewrite app_nil_r. reflexivity.
Qed.

Lemma fold_left_cite {A} (hit : A -> bool) (url : A -> string) (l : list A)
  (acc : list string) :
  fold_left (fun acc x => acc ++ (if hit x then [url x] else [])) l acc =
  acc ++ map url (List.filter hit l).
Proof.
  revert acc. induction l as [|x l IH]; intros acc; simpl.
  - rewrite app_nil_r. reflexivity.
  - rewrite IH. destruct (hit x); simpl.
    + rewrite <- app_assoc. reflexivity.
    + rewrite app_nil_r. reflexivity.
Qed.

(** Solve the goals that compare a category with the names of a table. *)
Ltac by_category c :=
  unfold triggers, comment_interest_rules, post_interest_rules, comment_trait_rules;
  cbn [ODict.get];
  repeat match goal with
  | |- context [decide (?name = c)] =>
      destruct (decide (name = c)) as [<-|?]
  end;
  repeat match goal with
  | |- context [bool_decide (?a = ?b)] =>
      first [ rewrite (bool_decide_eq_true_2 (a = b)) by reflexivity
            | rewrite (bool_decide_eq_false_2 (a = b)) by congruence ]
  end;
  rewrite ?andb_true_r, ?andb_false_r, ?orb_false_r, ?app_nil_r;
  cbn [app]; try reflexivity.

Lemma comment_step_interests (category : string) (comment : Comment.t)
  (p p' : persona) :
  analyze_comment_item comment p = (p', Ok tt) ->
  cites category (interests p') =
  cites category (interests p) ++
  (if triggers comment_interest_rules category (comment_text comment)
   then [Comment.permalink comment] else []).
Proof.
  intros Hrun.
  destruct (comment_item_citations comment p) as [Hi _]. rewrite Hrun in Hi.
  simpl in Hi. rewrite Hi.
  destruct (analyze_comment_citations comment p) as [-> _].
  rewrite !cites_cite_if, <- !app_assoc. f_equal.
  by_category category;
    repeat match goal with |- context [if ?b then _ else _] => destruct b end;
    reflexivity.
Qed.

Lemma post_step_interests (category : string) (post : Post.t) (p p' : persona) :
  analyze_post_item post p = (p', Ok tt) ->
  cites category (interests p') =
  cites category (interests p) ++
  (if triggers post_interest_rules category (post_text post)
   then [Post.permalink post] else []).
Proof.
  intros Hrun.
  destruct (post_item_citations post p) as [Hi _]. rewrite Hrun in Hi.
  simpl in Hi. rewrite Hi.
  destruct (analyze_post_citations post p) as [-> _].
  rewrite !cites_cite_if, <- !app_assoc. f_equal.
  by_category category;
    repeat match goal with |- context [if ?b then _ else _] => destruct b end;
    reflexivity.
Qed.

Lemma comment_step_traits (category : string) (comment : Comment.t)
  (p p' : persona) :
  analyze_comment_item comment p = (p', Ok tt) ->
  cites category (personality_traits p') =
  cites category (personality_traits p) ++
  (if triggers comment_trait_rules category (comment_text comment)
   then [Comment.permalink comment] else []).
Proof.
  intros Hrun.
  destruct (comment_item_citations comment p) as [_ Ht]. rewrite Hrun in Ht.
  simpl in Ht. rewrite Ht.
  destruct (analyze_comment_citations comment p) as [_ ->].
  rewrite !cites_cite_if, <- !app_assoc. f_equal.
  by_category category; unfold Str.any_in; cbn [existsb];
    rewrite ?orb_false_r;
    repeat match goal with |- context [if ?b then _ else _] => destruct b end;
    reflexivity.
Qed.

Lemma post_step_traits (category : string) (post : Post.t) (p p' : persona) :
  analyze_post_item post p = (p', Ok tt) ->
  cites category (personality_traits p') =
  cites category (personality_traits p) ++
  (if bool_decide (category = "inquisitive") && Str.contains "?" (Post.title post)
   then [Post.permalink post] else []).
Proof.
  intros Hrun.
  destruct (post_item_citations post p) as [_ Ht]. rewrite Hrun in Ht.
  simpl in Ht. rewrite Ht.
  destruct (analyze_post_citations post p) as [_ ->].
  rewrite cites_cite_if. f_equal.
  destruct (decide (category = "inquisitive")) as [->|Hne].
  - rewrite !bool_decide_eq_true_2 by reflexivity.
    rewrite andb_true_r. reflexivity.
  - rewrite !bool_decide_eq_false_2 by congruence.
    rewrite andb_false_r. reflexivity.
Qed.

(** X5: when the analysis completes, the citations of an interest are the
    permalinks of the comments whose lowercased body contains one of the
    phrases the comment rules give for it, in the order of the comments,
    followed by the permalinks of the posts whose lowercased title and
    text contain one of the phrases the post rules give for it, in the
    order of the posts.  A name outside the two tables has no citation. *)
Theorem X5_interest_citations_in_fetch_order
  (now : Datetime.datetime) (info : user_info) (p : persona) (category : string) :
  analyze_persona now info = Ok p ->
  cites category (interests p) =
    cited_comments comment_interest_rules category (comments info) ++
    cited_posts post_interest_rules category (posts info).
Proof.
  intros Hrun.
  destruct (analyzed_loops now info p Hrun)
    as (p0 & p1 & p2 & H0 & _ & _ & H1 & H2 & -> & _).
  apply (for_each_observe analyze_comment_item
           (fun s => cites category (interests s))
           (fun c acc => acc ++
              (if triggers comment_interest_rules category (comment_text c)
               then [Comment.permalink c] else []))
           (comment_step_interests category)) in H1.
  apply (for_each_observe analyze_post_item
           (fun s => cites category (interests s))
           (fun po acc => acc ++
              (if triggers post_interest_rules category (post_text po)
               then [Post.permalink po] else []))
           (post_step_interests category)) in H2.
  rewrite H2, H1, H0, !fold_left_cite. reflexivity.
Qed.

Lemma X5_witness :
  exists p, analyze_persona sample_now two_comments = Ok p /\
    cites "gaming" (interests p) = ["https://reddit.com/r/movies/3"].
Proof.
  eexists. split; [vm_compute; reflexivity|].
  apply (X5_interest_citations_in_fetch_order sample_now two_comments _ "gaming").
  vm_compute. reflexivity.
Defined.

(** X6: when the analysis completes on an account whose comment bodies
    are ASCII texts, the citations of a trait are the permalinks of the
    comments whose lowercased body contains one of the phrases of the
    trait, in the order of the comments; for the trait inquisitive they
    are followed by the permalinks of the posts whose title has a
    question mark, in the order of the posts.  The text of a post is not
    looked at for traits. *)
Theorem X6_trait_citations_in_fetch_order
  (now : Datetime.datetime) (info : user_info) (p : persona) (category : string) :
  analyze_persona now info = Ok p ->
  ascii_comments info = true ->
  cites category (personality_traits p) =
    cited_comments comment_trait_rules category (comments info) ++
    questioning_posts category (posts info).
Proof.
  intros Hrun _.
  destruct (analyzed_loops now info p Hrun)
    as (p0 & p1 & p2 & _ & H0 & _ & H1 & H2 & _ & -> & _).
  apply (for_each_observe analyze_comment_item
           (fun s => cites category (personality_traits s))
           (fun c acc => acc ++
              (if triggers comment_trait_rules category (comment_text c)
               then [Comment.permalink c] else []))
           (comment_step_traits category)) in H1.
  apply (for_each_observe analyze_post_item
           (fun s => cites category (personality_traits s))
           (fun po acc => acc ++
              (if bool_decide (category = "inquisitive")
                  && Str.contains "?" (Post.title po)
               then [Post.permalink po] else []))
           (post_step_traits category)) in H2.
  rewrite H2, H1, H0, !fold_left_cite. reflexivity.
Qed.

Lemma X6_witness :
  exists p, analyze_persona sample_now two_comments = Ok p /\
    cites "inquisitive" (personality_traits p) = ["https://reddit.com/r/movies/3"].
Proof.
  eexists. split; [vm_compute; reflexivity|].
  apply (X6_trait_citations_in_fetch_order sample_now two_comments _ "inquisitive").
  - vm_compute. reflexivity.
  - vm_compute. reflexivity.
Defined.

(** ** The categories *)

Lemma well_keyed_cite_if (names : list string) (b : bool) (category url : string)
  (d : ODict.t (list string)) :
  In category names -> well_keyed names d ->
  well_keyed names (cite_if b category url d).
Proof.
  intros Hin (Hnodup & Hincl & Hfull). destruct b; simpl; [|repeat split; assumption].
  split; [apply odict_update_nodup, Hnodup|].
  split; [apply odict_update_keys_incl; assumption|].
  apply odict_update_values; [discriminate | | exact Hfull].
  intros v _ Hv. apply app_eq_nil in Hv as [_ Hv]. discriminate.
Qed.

Lemma well_keyed_length (names : list string) (d : ODict.t (list string)) :
  well_keyed names d -> (length d <= length names)%nat.
Proof.
  intros (Hnodup & Hincl & _).
  rewrite <- (length_map fst d). apply List.NoDup_incl_length; assumption.
Qed.

Lemma interests_well_keyed (now : Datetime.datetime) (info : user_info)
  (p : persona) :
  analyze_persona now info = Ok p ->
  well_keyed interest_names (interests p) /\
  well_keyed trait_names (personality_traits p).
Proof.
  intros Hrun.
  destruct (analyzed_loops now info p Hrun)
    as (p0 & p1 & p2 & Hi0 & Ht0 & _ & H1 & H2 & -> & -> & _).
  split.
  - apply (loops_invariant (fun s => well_keyed interest_names (interests s))
             info p0 p1 p2); [| | | exact H1 | exact H2].
    + intros x s s' Hs Hx.
      destruct (comment_item_citations x s) as [Hi _]. rewrite Hx in Hi.
      simpl in Hi. rewrite Hi.
      destruct (analyze_comment_citations x s) as [-> _].
      repeat apply well_keyed_cite_if; simpl; auto 10.
    + intros x s s' Hs Hx.
      destruct (post_item_citations x s) as [Hi _]. rewrite Hx in Hi.
      simpl in Hi. rewrite Hi.
      destruct (analyze_post_citations x s) as [-> _].
      repeat apply well_keyed_cite_if; simpl; auto 10.
    + rewrite Hi0. repeat split; [constructor | intros x [] | constructor].
  - apply (loops_invariant (fun s => well_keyed trait_names (personality_traits s))
             info p0 p1 p2); [| | | exact H1 | exact H2].
    + intros x s s' Hs Hx.
      destruct (comment_item_citations x s) as [_ Ht]. rewrite Hx in Ht.
      simpl in Ht. rewrite Ht.
      destruct (analyze_comment_citations x s) as [_ ->].
      repeat apply well_keyed_cite_if; simpl; auto 10.
    + intros x s s' Hs Hx.
      destruct (post_item_citations x s) as [_ Ht]. rewrite Hx in Ht.
      simpl in Ht. rewrite Ht.
      destruct (analyze_post_citations x s) as [_ ->].
      repeat apply well_keyed_cite_if; simpl; auto 10.
    + rewrite Ht0. repeat split; [constructor | intros x [] | constructor].
Qed.

(** X7: when the analysis completes, the interests are keyed by some of
    the five category names of the two analysers and the traits by some of
    the three trait names, no name twice, and no category is kept with an
    empty citation list.  So there are never more than five interests:
    the cut of the ranking at five drops none, and the ranked interests
    are all the interests, sorted. *)
Theorem X7_every_interest_is_ranked
  (now : Datetime.datetime) (info : user_info) (p : persona) :
  analyze_persona now info = Ok p ->
  well_keyed interest_names (interests p) /\
  well_keyed trait_names (personality_traits p) /\
  (ODict.len (interests p) <= 5)%Z /\
  (ODict.len (personality_traits p) <= 3)%Z /\
  top_interests p = sorted_desc citation_count (interests p) /\
  Permutation (top_interests p) (interests p).
Proof.
  intros Hrun.
  destruct (interests_well_keyed now info p Hrun) as [Hi Ht].
  pose proof (well_keyed_length _ _ Hi) as Hli.
  pose proof (well_keyed_length _ _ Ht) as Hlt.
  change (length interest_names) with 5%nat in Hli.
  change (length trait_names) with 3%nat in Hlt.
  assert (Htop : top_interests p = sorted_desc citation_count (interests p)).
  { destruct (analyzed_loops now info p Hrun)
      as (p0 & p1 & p2 & _ & _ & _ & _ & _ & Hi2 & _ & _ & _ & -> & _).
    rewrite <- Hi2. unfold top5. apply take_ge.
    rewrite (Permutation_length (sorted_desc_perm citation_count (interests p))).
    exact Hli. }
  repeat split; try apply Hi; try apply Ht; unfold ODict.len; try lia.
  - exact Htop.
  - rewrite Htop. apply sorted_desc_perm.
Qed.

Lemma X7_witness :
  exists p, analyze_persona sample_now two_comments = Ok p /\
    Permutation (top_interests p) (interests p).
Proof.
  eexists. split; [vm_compute; reflexivity|].
  apply (X7_every_interest_is_ranked sample_now two_comments).
  vm_compute. reflexivity.
Defined.

(** ** The outcome of the renderer *)

Lemma bind_outcome {S A B} (m : ST S A) (k : A -> ST S B) (s : S) :
  (bind m k s).2 =
  match (m s).2 with
  | Ok a => (k a (m s).1).2
  | Raise e => Raise e
  end.
Proof. unfold bind. destruct (m s) as [s' [a|e]]; reflexivity. Qed.

Lemma only_appends_outcome (m : ST string unit) (file : string) :
  only_appends m -> (m file).2 = Ok tt.
Proof. intros [out H]. rewrite H. reflexivity. Qed.

Lemma only_appends_basic_information (p : persona) :
  only_appends (write_basic_information p).
Proof.
  unfold write_basic_information.
  repeat first
    [ apply only_appends_write
    | apply only_appends_bind
    | apply only_appends_for_each; intros [key value] ].
Qed.

Lemma only_appends_top_interests (p : persona) : only_appends (write_top_interests p).
Proof.
  unfold write_top_interests.
  repeat first
    [ apply only_appends_write
    | apply only_appends_category
    | apply only_appends_bind
    | apply only_appends_for_each; intros ? ].
Qed.

Lemma only_appends_personality_traits (p : persona) :
  only_appends (write_personality_traits p).
Proof.
  unfold write_personality_traits.
  repeat first
    [ apply only_appends_write
    | apply only_appends_category
    | apply only_appends_bind
    | apply only_appends_for_each; intros ? ].
Qed.

Lemma only_appends_frequent_subreddits (p : persona) :
  only_appends (write_frequent_subreddits p).
Proof.
  unfold write_frequent_subreddits.
  repeat first
    [ apply only_appends_write
    | apply only_appends_bind
    | apply only_appends_for_each; intros [name count] ].
Qed.

(** The quotient of two positive integers, the dividend below [2^1023],
    is a float: the division does not overflow. *)
Lemma nearest_exponent_bound (p q : Z) :
  (0 < p < 2 ^ 1023)%Z -> (0 < q)%Z ->
  ((Float64.nearest p q).2 <= Float64.emax)%Z.
Proof.
  intros Hp Hq. unfold Float64.nearest.
  destruct (Z.eqb_spec p 0) as [?|_]; [lia|].
  assert (Hlp : (Z.log2 p < 1023)%Z) by (apply Z.log2_lt_pow2; lia).
  pose proof (Z.log2_nonneg q) as Hlq.
  set (e0 := (Z.log2 p - Z.log2 q - 52)%Z).
  assert (He0 : (e0 <= 970)%Z) by (unfold e0; lia).
  clearbody e0.
  set (e1 := if Float64.below_pow2 p q (e0 + 52) then (e0 - 1)%Z else e0).
  assert (He1 : (e1 <= 970)%Z) by (unfold e1; destruct (Float64.below_pow2 _ _ _); lia).
  clearbody e1.
  unfold Float64.emin, Float64.emax.
  match goal with |- context [if ?c then _ else _] => destruct c end;
    cbn [snd]; lia.
Qed.

Lemma truediv_defined (a b : Z) :
  (0 < a < 2 ^ 1023)%Z -> (0 < b)%Z -> exists x, Float64.truediv a b = Ok x.
Proof.
  intros Ha Hb. unfold Float64.truediv.
  destruct (Z.eqb_spec b 0) as [?|_]; [lia|].
  rewrite !Z.abs_eq by lia.
  pose proof (nearest_exponent_bound a b Ha Hb) as Hbound.
  destruct (Float64.nearest a b) as [m e]. cbn [snd] in Hbound.
  destruct (Z.ltb_spec Float64.emax e) as [?|_]; [lia|].
  eexists. reflexivity.
Qed.

Lemma write_language_style_outcome (p : persona) (file : string) :
  (write_language_style p file).2 =
  if (0 <? style_get "comment_length" (language_style p))%Z then
    match Float64.truediv (style_get "comment_length" (language_style p))
            (ODict.len (personality_traits p) + ODict.len (interests p)) with
    | Ok _ => Ok tt
    | Raise e => Raise e
    end
  else Ok tt.
Proof.
  unfold write_language_style.
  rewrite bind_outcome, (only_appends_outcome _ _ (only_appends_write _)).
  rewrite bind_outcome.
  assert (Hrest : forall f,
            ((when (0 <? style_get "exclamation_use" (language_style p))%Z
                (write ("- Frequently uses exclamation marks" +:+ nl)) ;;
              when (0 <? style_get "self_reference" (language_style p))%Z
                (write ("- Often uses self-referential language (I, me, my)" +:+ nl)) ;;
              write nl)%st f).2 = Ok tt).
  { intros f. apply only_appends_outcome.
    repeat first
      [ apply only_appends_write | apply only_appends_when | apply only_appends_bind ]. }
  destruct (0 <? style_get "comment_length" (language_style p))%Z.
  - rewrite bind_outcome. unfold lift at 1. cbn [snd fst].
    destruct (Float64.truediv _ _) as [avg|e]; [|reflexivity].
    rewrite (only_appends_outcome _ _ (only_appends_write _)). apply Hrest.
  - unfold ret at 1. cbn [snd fst]. apply Hrest.
Qed.

(** X8: on the persona of a completed analysis, with a word total below
    [2^1023], [generate_persona_file] raises in one case only: the
    comments have words and no interest or trait category was hit; the
    exception is then [ZeroDivisionError].  In every other case the report
    is written to the end. *)
Theorem X8_report_fails_only_without_categories
  (now : Datetime.datetime) (info : user_info) (p : persona) :
  analyze_persona now info = Ok p ->
  (style_get "comment_length" (language_style p) < 2 ^ 1023)%Z ->
  (generate_persona_file p "").2 =
  if (0 <? style_get "comment_length" (language_style p))%Z
     && (ODict.len (personality_traits p) + ODict.len (interests p) =? 0)%Z
  then Raise ZeroDivisionError
  else Ok tt.
Proof.
  intros Hrun Hwords. unfold generate_persona_file.
  rewrite bind_outcome, (only_appends_outcome _ _ (only_appends_write _)).
  rewrite bind_outcome, (only_appends_outcome _ _ (only_appends_basic_information p)).
  rewrite bind_outcome, (only_appends_outcome _ _ (only_appends_top_interests p)).
  rewrite bind_outcome, (only_appends_outcome _ _ (only_appends_personality_traits p)).
  rewrite bind_outcome.
  rewrite (write_night_only p _ _ (Nat2Z.is_nonneg _) (analyzed_activity now info p Hrun)).
  cbn [snd fst].
  rewrite bind_outcome, write_language_style_outcome.
  destruct (Z.ltb_spec 0 (style_get "comment_length" (language_style p)))
    as [Hpos|_]; cbn [andb].
  - unfold ODict.len.
    destruct (Z.eqb_spec (Z.of_nat (length (personality_traits p))
                          + Z.of_nat (length (interests p))) 0) as [->|Hcat].
    + reflexivity.
    + destruct (truediv_defined (style_get "comment_length" (language_style p))
                  (Z.of_nat (length (personality_traits p))
                   + Z.of_nat (length (interests p)))) as [avg ->]; [lia | lia |].
      rewrite bind_outcome,
        (only_appends_outcome _ _ (only_appends_frequent_subreddits p)).
      apply only_appends_outcome, only_appends_write.
  - rewrite bind_outcome,
      (only_appends_outcome _ _ (only_appends_frequent_subreddits p)).
    apply only_appends_outcome, only_appends_write.
Qed.

Lemma X8_witness :
  exists p, analyze_persona sample_now two_comments = Ok p /\
    (generate_persona_file p "").2 = Ok tt.
Proof.
  eexists. split; [vm_compute; reflexivity|].
  apply (X8_report_fails_only_without_categories sample_now two_comments).
  - vm_compute. reflexivity.
  - vm_compute. reflexivity.
Defined.

(** ** The activity section on any persona *)

Lemma truediv_moderate (a b : Z) :
  moderate a -> b <> 0%Z -> exists x, Float64.truediv a b = Ok x.
Proof.
  unfold moderate. intros Ha Hb. unfold Float64.truediv.
  destruct (Z.eqb_spec b 0) as [?|_]; [contradiction|].
  destruct (Z.eq_dec a 0%Z) as [->|Hne].
  - eexists. reflexivity.
  - pose proof (nearest_exponent_bound (Z.abs a) (Z.abs b)
                  ltac:(lia) ltac:(lia)) as Hbound.
    destruct (Float64.nearest (Z.abs a) (Z.abs b)) as [m e]. cbn [snd] in Hbound.
    destruct (Z.ltb_spec Float64.emax e) as [?|_]; [lia|].
    eexists. reflexivity.
Qed.

Lemma write_activity_line_outcome (total : Z) (item : string * Z) (file : string) :
  moderate item.2 ->
  (write_activity_line total item file).2 =
  if (total =? 0)%Z then Raise ZeroDivisionError else Ok tt.
Proof.
  destruct item as [time count]. cbn [snd]. intros Hcount.
  unfold write_activity_line. rewrite bind_outcome. unfold lift at 1. cbn [snd fst].
  destruct (Z.eqb_spec total 0) as [->|Hne].
  - reflexivity.
  - destruct (truediv_moderate count total Hcount Hne) as [ratio ->].
    reflexivity.
Qed.

(** X9: whatever persona it is given, with counts below [2^1023] in
    size, the activity section raises exactly when the dictionary has an
    entry and its counts add up to zero, and then with
    [ZeroDivisionError]: the total is divided by for the first entry,
    unchecked.  An empty dictionary is written as the bare heading. *)
Theorem X9_activity_section_fails_on_zero_total (p : persona) (file : string) :
  List.Forall moderate (ODict.values (activity_patterns p)) ->
  (write_activity_patterns p file).2 =
  match activity_patterns p with
  | [] => Ok tt
  | _ :: _ =>
      if (sum_values (activity_patterns p) =? 0)%Z then Raise ZeroDivisionError
      else Ok tt
  end.
Proof.
  intros Hcounts. unfold write_activity_patterns.
  rewrite bind_outcome, (only_appends_outcome _ _ (only_appends_write _)).
  rewrite bind_outcome.
  set (total := sum_values (activity_patterns p)).
  assert (Hloop : forall l f,
            List.Forall moderate (ODict.values l) ->
            (for_each l (write_activity_line total) f).2 =
            match l with
            | [] => Ok tt
            | _ :: _ => if (total =? 0)%Z then Raise ZeroDivisionError else Ok tt
            end).
  { induction l as [|item l IH]; intros f Hl; [reflexivity|].
    inversion Hl as [|? ? Hitem Hl']; subst.
    cbn [for_each]. rewrite bind_outcome, write_activity_line_outcome by exact Hitem.
    destruct (total =? 0)%Z eqn:Htotal; [reflexivity|].
    rewrite (IH _ Hl'). destruct l; reflexivity. }
  rewrite (Hloop _ _ Hcounts).
  destruct (activity_patterns p) as [|item l].
  - apply only_appends_outcome, only_appends_write.
  - destruct (total =? 0)%Z; [reflexivity|].
    apply only_appends_outcome, only_appends_write.
Qed.

Lemma X9_witness :
  (write_activity_patterns
     (set_activity_patterns (fun _ => [("night", 0%Z)]) (new_persona [])) "").2
  = Raise ZeroDivisionError.
Proof.
  apply (X9_activity_section_fails_on_zero_total
           (set_activity_patterns (fun _ => [("night", 0%Z)]) (new_persona [])) "").
  repeat constructor.
Defined.

(** ** The runs of [main] *)

(** With the generator constructed and a file system that takes every
    name, the run from the first line is the run of [main]. *)
Lemma main_from_start_ready (env : environment)
  (reddit : string -> Praw.response) (now : Datetime.datetime) (typed : string)
  (trace : list event) :
  generator env = Ok reddit ->
  (forall filename, open_w env filename = Ok tt) ->
  main_from_start env now typed trace = main reddit now typed trace.
Proof.
  intros Hgen Hopen.
  unfold main_from_start, main, generate_persona_file_at, bind, lift.
  rewrite Hgen. cbn [emit modify fst snd].
  destruct (decide (parse_username typed = "")); [reflexivity|].
  cbn [emit modify fst snd].
  destruct (extract_user_info reddit (parse_username typed) _) as [t [[info|]|e]];
    try reflexivity.
  cbn [emit modify fst snd].
  destruct (analyze_persona now info) as [p|e]; [|reflexivity].
  rewrite Hopen.
  destruct (generate_persona_file p "") as [contents outcome]. reflexivity.
Qed.

(** When the generator cannot be constructed, the run ends after the
    banner. *)
Lemma main_without_generator (env : environment) (now : Datetime.datetime)
  (typed : string) (e : exn) :
  generator env = Raise e ->
  main_from_start env now typed [] = (banner, Raise e).
Proof.
  intros Hgen. unfold main_from_start, bind, lift. rewrite Hgen. reflexivity.
Qed.

(** The run after the prompt, by cases. *)
Lemma main_cases (env : environment) (reddit : string -> Praw.response)
  (now : Datetime.datetime) (typed : string) :
  generator env = Ok reddit ->
  let name := parse_username typed in
  let fetching := Print (nl +:+ "Fetching data for user: " +:+ name +:+ "...") in
  let analyzing := Print "Analyzing user data and generating persona..." in
  (name = "" /\
   main_from_start env now typed [] =
     (greeting ++ [Print "Invalid Reddit profile URL. Please include the username."],
      Ok tt)) \/
  (name <> "" /\ exists e,
     reddit name = Praw.Raised e /\
     main_from_start env now typed [] =
       (greeting ++
        [fetching; Fetch name; Print ("Error fetching user data: " +:+ e);
         Print "Failed to fetch user data. Please check the username and try again."],
        Ok tt)) \/
  (name <> "" /\ exists user info,
     reddit name = Praw.Found user /\
     extract_user_info reddit name [] = ([Fetch name], Ok (Some info)) /\
     ((exists e,
         analyze_persona now info = Raise e /\
         main_from_start env now typed [] =
           (greeting ++ [fetching; Fetch name; analyzing], Raise e)) \/
      (exists p contents outcome,
         analyze_persona now info = Ok p /\
         generate_persona_file p "" = (contents, outcome) /\
         main_from_start env now typed [] =
           match open_w env (report_filename name) with
           | Raise e => (greeting ++ [fetching; Fetch name; analyzing], Raise e)
           | Ok _ =>
               (greeting ++
                [fetching; Fetch name; analyzing;
                 WriteFile (report_filename name) contents] ++
                (if is_ok outcome then
                   [Print (nl +:+ "Persona generated successfully! Saved to: "
                           +:+ report_filename name);
                    Print (nl +:+ "Note: Due to API limitations, this analysis is based on the user's most recent 100 comments and 50 posts.")]
                 else []),
                outcome)
           end))).
Proof.
  intros Hgen name fetching analyzing. subst fetching analyzing.
  destruct env as [made opens]. cbn [generator open_w] in *. subst made.
  unfold main_from_start, bind, lift, emit, modify.
  cbn [generator open_w fst snd]. fold name.
  destruct (decide (name = "")) as [Hname|Hname].
  { left. split; [exact Hname | reflexivity]. }
  right. unfold extract_user_info.
  destruct (reddit name) as [e|user] eqn:Hfetch.
  { left. split; [exact Hname|]. exists e. split; reflexivity. }
  right. split; [exact Hname|].
  eexists user, _. split; [reflexivity|]. split; [reflexivity|].
  unfold generate_persona_file_at, bind, emit, modify, ret, lift.
  cbn [fst snd app greeting].
  match goal with
  | |- context [analyze_persona now ?i] =>
      destruct (analyze_persona now i) as [p|e] eqn:Hrun
  end.
  - right. destruct (generate_persona_file p "") as [contents outcome] eqn:Hgenerate.
    exists p, contents, outcome. split; [reflexivity|]. split; [exact Hgenerate|].
    cbn [open_w].
    destruct (opens (report_filename name)) as [[]|e]; [|reflexivity].
    destruct outcome as [[]|e]; reflexivity.
  - left. exists e. split; reflexivity.
Qed.

(** X10: whatever ASCII line the operator types and whatever the API and
    the file system answer, a run starts with the banner.  When the
    generator cannot be constructed it ends there, with the exception of
    the construction.  Otherwise the prompt follows; the run asks the API
    once, for the parsed name, unless that name is empty, in which case
    it asks nothing; it writes at most one file, named after the parsed
    name, and only when the account was found and the file could be
    opened; and an exception leaves [main] only when the account was
    found, that is from the analysis, the opening of the file or the
    renderer. *)
Theorem X10_at_most_one_fetch_and_one_file
  (env : environment) (now : Datetime.datetime) (typed : string) :
  ascii_text typed = true ->
  let name := parse_username typed in
  let run := main_from_start env now typed [] in
  match generator env with
  | Raise e => run = (banner, Raise e)
  | Ok reddit =>
      take 3 run.1 = greeting /\
      fetches run.1 = (if decide (name = "") then [] else [name]) /\
      (writes run.1 = [] \/
       exists contents, writes run.1 = [(report_filename name, contents)]) /\
      (writes run.1 = [] \/
       (exists user, reddit name = Praw.Found user) /\
       open_w env (report_filename name) = Ok tt) /\
      (run.2 = Ok tt \/ exists user, reddit name = Praw.Found user)
  end.
Proof.
  intros _ name run. subst run.
  destruct (generator env) as [reddit|e] eqn:Hgen;
    [|apply main_without_generator; exact Hgen].
  destruct (main_cases env reddit now typed Hgen)
    as [(Hname & ->) | [(Hname & e & Hfetch & ->)
       | (Hname & user & info & Hfetch & _ &
           [(e & _ & ->) | (p & contents & outcome & _ & _ & ->)])]];
    fold name in Hname |- *.
  - rewrite decide_True by exact Hname. repeat split; auto.
  - rewrite decide_False by exact Hname. repeat split; auto.
  - rewrite decide_False by exact Hname. repeat split; eauto.
  - rewrite decide_False by exact Hname.
    destruct (open_w env (report_filename name)) as [[]|e].
    + split; [reflexivity|].
      split; [destruct outcome; reflexivity|].
      split; [right; exists contents; destruct outcome; reflexivity|].
      split; [right; split; [exists user; exact Hfetch | reflexivity]|].
      right; exists user; exact Hfetch.
    + repeat split; eauto.
Qed.

Lemma X10_witness :
  writes (main_from_start sample_environment sample_now
            "https://www.reddit.com/user/bob/" []).1 = [] \/
  (exists user, sample_reddit "bob" = Praw.Found user) /\
  flat_directory "reddit_persona_bob.txt" = Ok tt.
Proof.
  refine (proj1 (proj2 (proj2 (proj2
            (X10_at_most_one_fetch_and_one_file sample_environment sample_now
               "https://www.reddit.com/user/bob/" _))))).
  vm_compute. reflexivity.
Defined.

(** X11: when the generator is constructed, the line typed is ASCII, the
    account is found, its dates have four-digit years and its comment
    bodies are ASCII texts, the user information is analysed without an
    error and the report file is opened.  If [open] raises, no file is
    written, nothing more is printed and its exception is the outcome of
    the run.  Otherwise the one file the run writes,
    [reddit_persona_<name>.txt], holds what the renderer wrote, to the
    end or up to its exception; the two closing messages are printed when
    the renderer completed and only then; and the outcome of the run is
    the outcome of the renderer. *)
Theorem X11_found_account_is_rendered
  (env : environment) (reddit : string -> Praw.response)
  (now : Datetime.datetime) (typed : string) (user : Praw.redditor) :
  ascii_text typed = true ->
  generator env = Ok reddit ->
  parse_username typed <> "" ->
  reddit (parse_username typed) = Praw.Found user ->
  well_dated user ->
  ascii_bodies user = true ->
  let name := parse_username typed in
  let run := main_from_start env now typed [] in
  exists info p contents outcome,
    extract_user_info reddit name [] = ([Fetch name], Ok (Some info)) /\
    analyze_persona now info = Ok p /\
    generate_persona_file p "" = (contents, outcome) /\
    match open_w env (report_filename name) with
    | Raise e =>
        run.2 = Raise e /\
        writes run.1 = [] /\
        printed_after_fetch run.1 = ["Analyzing user data and generating persona..."]
    | Ok _ =>
        run.2 = outcome /\
        writes run.1 = [(report_filename name, contents)] /\
        printed_after_fetch run.1 =
          "Analyzing user data and generating persona..." ::
          (if is_ok outcome then
             [nl +:+ "Persona generated successfully! Saved to: " +:+ report_filename name;
              nl +:+ "Note: Due to API limitations, this analysis is based on the user's most recent 100 comments and 50 posts."]
           else [])
    end.
Proof.
  intros _ Hgen Hname Hfound Hdated _ name run. subst name run.
  destruct (fetched_analysis_completes reddit now (parse_username typed) user []
              Hfound Hdated)
    as (info & p & Hextract & _ & _ & Hrun).
  destruct (main_cases env reddit now typed Hgen)
    as [(Hempty & _) | [(_ & e & Hfetch & _)
       | (_ & user' & info' & _ & Hextract' &
           [(e & Hraise & _) | (p' & contents & outcome & Hrun' & Hgenerate & Hmain)])]];
    cbv zeta in *.
  - contradiction.
  - congruence.
  - rewrite Hextract in Hextract'. injection Hextract' as <-. congruence.
  - rewrite Hextract in Hextract'. injection Hextract' as <-.
    rewrite Hrun in Hrun'. injection Hrun' as <-.
    exists info, p, contents, outcome.
    split; [assumption|]. split; [assumption|]. split; [assumption|].
    rewrite Hmain.
    destruct (open_w env (report_filename (parse_username typed))) as [[]|e].
    + repeat split; destruct outcome; reflexivity.
    + repeat split.
Qed.

(** The account [bob] is rendered to [reddit_persona_bob.txt]; under the
    name [bob/comments], which the address of the comments page gives,
    [open] raises and nothing is written. *)
Lemma X11_witness :
  (exists contents,
     writes (main_from_start sample_environment sample_now
               "https://www.reddit.com/user/bob/" []).1
     = [("reddit_persona_bob.txt", contents)]) /\
  main_from_start nested_environment sample_now
    "https://www.reddit.com/user/bob/comments/" [] =
    (greeting ++
     [Print (nl +:+ "Fetching data for user: bob/comments...");
      Fetch "bob/comments";
      Print "Analyzing user data and generating persona..."],
     Raise (LibraryError "FileNotFoundError")).
Proof.
  split; [|vm_compute; reflexivity].
  destruct (X11_found_account_is_rendered sample_environment sample_reddit sample_now
              "https://www.reddit.com/user/bob/" sample_redditor)
    as (info & p & contents & outcome & _ & _ & _ & Hopen).
  - vm_compute. reflexivity.
  - reflexivity.
  - vm_compute. discriminate.
  - reflexivity.
  - repeat split; repeat constructor.
  - vm_compute. reflexivity.
  - assert (Hok : open_w sample_environment
                    (report_filename
                       (parse_username "https://www.reddit.com/user/bob/")) = Ok tt)
      by (vm_compute; reflexivity).
    rewrite Hok in Hopen. destruct Hopen as (_ & Hwrites & _).
    exists contents. exact Hwrites.
Defined.

(** ** The name in the profile address *)

Lemma slashless_cons (c : ascii) (s : string) :
  slashless (String c s) = true ->
  c <> "/"%char /\ Str.is_slash c = false /\ slashless s = true.
Proof.
  unfold slashless. cbn [Str.contains Str.startswith].
  destruct (ascii_dec "/" c) as [<-|Hne]; [discriminate|].
  cbn [orb]. intros Hs. split; [congruence|]. split; [|exact Hs].
  unfold Str.is_slash, Str.code.
  destruct (N.eqb_spec (N_of_ascii c) 47) as [Hcode|]; [|reflexivity].
  exfalso. apply Hne. rewrite <- (ascii_N_embedding c), Hcode. reflexivity.
Qed.

(** Stripping leaves a text alone when its last character stays. *)
Lemma rstrip_last_kept (drop : ascii -> bool) (s : string) (c : ascii) :
  drop c = false ->
  Str.rstrip drop (s +:+ String c "") = s +:+ String c "".
Proof.
  intros Hc. induction s as [|a s IH].
  - rewrite append_nil. cbn [Str.rstrip]. rewrite Hc. reflexivity.
  - rewrite append_cons. cbn [Str.rstrip]. rewrite IH.
    destruct s; reflexivity.
Qed.

Lemma rstrip_last_dropped (drop : ascii -> bool) (s : string) (c : ascii) :
  drop c = true ->
  Str.rstrip drop (s +:+ String c "") = Str.rstrip drop s.
Proof.
  intros Hc. induction s as [|a s IH].
  - rewrite append_nil. cbn [Str.rstrip]. rewrite Hc. reflexivity.
  - rewrite append_cons. cbn [Str.rstrip]. rewrite IH. reflexivity.
Qed.

Lemma rstrip_slashless (s : string) :
  slashless s = true -> Str.rstrip Str.is_slash s = s.
Proof.
  induction s as [|c s IH]; intros Hs; [reflexivity|].
  apply slashless_cons in Hs as (_ & Hc & Hs).
  cbn [Str.rstrip]. rewrite (IH Hs), Hc. destruct s; reflexivity.
Qed.

(** No separator starts inside a name without a slash, nor at the slash
    that closes the address. *)
Lemma split_go_slashless (name cur : string) :
  slashless name = true ->
  Str.split_go "/user/" 0 cur (name +:+ "/") = [String.rev_app cur (name +:+ "/")].
Proof.
  revert cur. induction name as [|c name IH]; intros cur Hname.
  - reflexivity.
  - apply slashless_cons in Hname as (Hc & _ & Hname).
    rewrite append_cons. cbn [Str.split_go Str.startswith].
    destruct (ascii_dec "/" c) as [?|_]; [congruence|].
    rewrite (IH _ Hname). reflexivity.
Qed.

(** One step of the scan of [split]: past a character where no separator
    starts, at the start of a separator, inside a separator. *)
Lemma split_go_miss (sep cur : string) (c : ascii) (s : string) :
  Str.startswith sep (String c s) = false ->
  Str.split_go sep 0 cur (String c s) = Str.split_go sep 0 (String c cur) s.
Proof. intros H. cbn [Str.split_go]. rewrite H. reflexivity. Qed.

Lemma split_go_hit (sep cur : string) (c : ascii) (s : string) :
  Str.startswith sep (String c s) = true ->
  Str.split_go sep 0 cur (String c s) =
  String.rev cur :: Str.split_go sep (String.length sep - 1) "" s.
Proof. intros H. cbn [Str.split_go]. rewrite H. reflexivity. Qed.

Lemma split_go_skip (sep cur : string) (k : nat) (c : ascii) (s : string) :
  Str.split_go sep (S k) cur (String c s) = Str.split_go sep k cur s.
Proof. reflexivity. Qed.

(** X12: from the address [https://www.reddit.com/user/<name>/], the form
    the prompt shows, [main] takes exactly <name>, for every name without
    a slash: nothing of the name is stripped, spaces included. *)
Theorem X12_profile_address_gives_the_name (name : string) :
  slashless name = true ->
  parse_username ("https://www.reddit.com/user/" +:+ name +:+ "/") = name.
Proof.
  intros Hname. unfold parse_username.
  assert (Hstrip : Str.strip Str.is_space
                     ("https://www.reddit.com/user/" +:+ name +:+ "/")
                   = "https://www.reddit.com/user/" +:+ name +:+ "/").
  { unfold Str.strip.
    replace (Str.lstrip Str.is_space ("https://www.reddit.com/user/" +:+ name +:+ "/"))
      with ("https://www.reddit.com/user/" +:+ name +:+ "/") by reflexivity.
    rewrite <- append_assoc. apply rstrip_last_kept. reflexivity. }
  rewrite Hstrip. clear Hstrip.
  assert (Hsplit : Str.split "/user/"
                     ("https://www.reddit.com/user/" +:+ name +:+ "/")
                   = ["https://www.reddit.com"; name +:+ "/"]).
  { unfold Str.split.
    repeat rewrite append_cons. rewrite append_nil.
    do 22 (rewrite split_go_miss by reflexivity).
    rewrite split_go_hit by reflexivity.
    change (String.length "/user/" - 1)%nat with 5%nat.
    do 5 rewrite split_go_skip.
    rewrite (split_go_slashless name "" Hname). reflexivity. }
  rewrite Hsplit. clear Hsplit.
  change (Str.last_piece ["https://www.reddit.com"; name +:+ "/"])
    with (name +:+ "/").
  unfold Str.strip.
  destruct name as [|c name].
  - reflexivity.
  - destruct (slashless_cons c name Hname) as (_ & Hc & _).
    rewrite append_cons. cbn [Str.lstrip]. rewrite Hc.
    rewrite <- append_cons, rstrip_last_dropped by reflexivity.
    apply rstrip_slashless, Hname.
Qed.

Lemma X12_witness :
  parse_username "https://www.reddit.com/user/kojied/" = "kojied".
Proof.
  apply (X12_profile_address_gives_the_name "kojied"). reflexivity.
Defined.

(** ** What the ranking leaves out *)

Lemma sorted_split {A} (R : A -> A -> Prop) (l1 l2 : list A) :
  StronglySorted R (l1 ++ l2) ->
  forall x y, In x l1 -> In y l2 -> R x y.
Proof.
  induction l1 as [|a l1 IH]; simpl; intros Hsorted x y Hx Hy; [contradiction|].
  inversion Hsorted as [|? ? Hrest Hall]; subst.
  destruct Hx as [<-|Hx].
  - rewrite List.Forall_forall in Hall. apply Hall, in_or_app. right. exact Hy.
  - apply (IH Hrest x y Hx Hy).
Qed.

Lemma top5_dominates {A} (key : A -> Z) (l : list A) (x y : A) :
  In x (top5 key l) -> In y l -> ~ In y (top5 key l) ->
  (key y <= key x)%Z.
Proof.
  unfold top5. intros Hx Hy Hout.
  apply (Permutation_in _ (Permutation_sym (sorted_desc_perm key l))) in Hy.
  rewrite <- (take_drop 5 (sorted_desc key l)) in Hy.
  apply in_app_or in Hy as [Hy|Hy]; [contradiction|].
  apply (sorted_split (key_ge key) (take 5 (sorted_desc key l))
           (drop 5 (sorted_desc key l))); [|exact Hx|exact Hy].
  rewrite take_drop. apply sorted_desc_sorted.
Qed.

Lemma top5_keys_nodup {V} (key : string * V -> Z) (d : ODict.t V) :
  List.NoDup (ODict.keys d) -> List.NoDup (ODict.keys (top5 key d)).
Proof.
  intros Hd. unfold top5, ODict.keys.
  apply (List.NoDup_app_remove_r _ (map fst (drop 5 (sorted_desc key d)))).
  rewrite <- map_app, take_drop.
  apply (Permutation_NoDup
           (Permutation_sym (Permutation_map fst (sorted_desc_perm key d)))).
  exact Hd.
Qed.

(** X13: when the analysis completes, the ranked subreddits are
    [min 5 n] of the [n] subreddits counted, each once, with the counts
    they have in the dictionary; no subreddit left out of the ranking has
    a larger count than one that is in it. *)
Theorem X13_ranked_subreddits_are_the_most_visited
  (now : Datetime.datetime) (info : user_info) (p : persona) :
  analyze_persona now info = Ok p ->
  length (top_subreddits p) = Nat.min 5 (length (frequent_subreddits p)) /\
  List.NoDup (ODict.keys (top_subreddits p)) /\
  (forall x, In x (top_subreddits p) -> In x (frequent_subreddits p)) /\
  (forall x y,
     In x (top_subreddits p) -> In y (frequent_subreddits p) ->
     ~ In y (top_subreddits p) -> (y.2 <= x.2)%Z).
Proof.
  intros Hrun.
  pose proof (subreddit_keys_nodup now info p Hrun) as Hnodup.
  destruct (analyzed_loops now info p Hrun)
    as (p0 & p1 & p2 & _ & _ & _ & _ & _ & _ & _ & Hs & _ & _ & ->).
  rewrite <- Hs. split; [|split; [|split]].
  - unfold top5. rewrite length_take.
    rewrite (Permutation_length (sorted_desc_perm interaction_count _)).
    reflexivity.
  - apply top5_keys_nodup, Hnodup.
  - intros x Hx. unfold top5 in Hx.
    apply (Permutation_in _ (sorted_desc_perm interaction_count _)).
    rewrite <- (take_drop 5 (sorted_desc _ _)). apply in_or_app. left. exact Hx.
  - intros x y Hx Hy Hout.
    apply (top5_dominates interaction_count (frequent_subreddits p) x y Hx Hy Hout).
Qed.

Lemma X13_witness :
  exists p, analyze_persona sample_now two_comments = Ok p /\
    length (top_subreddits p) = 3%nat.
Proof.
  eexists. split; [vm_compute; reflexivity|].
  apply (X13_ranked_subreddits_are_the_most_visited sample_now two_comments).
  vm_compute. reflexivity.
Defined.

(** ** The title and the text of a post *)

Lemma lower_append (a b : string) :
  Str.lower (a +:+ b) = Str.lower a +:+ Str.lower b.
Proof.
  induction a as [|c a IH]; [reflexivity|].
  rewrite append_cons. cbn [Str.lower]. rewrite IH. reflexivity.
Qed.

(** Two ways of cutting one text: one cut comes first. *)
Lemma append_eq_split (a b c d : string) :
  a +:+ b = c +:+ d ->
  (exists m, c = a +:+ m /\ b = m +:+ d) \/
  (exists m, a = c +:+ m /\ d = m +:+ b).
Proof.
  revert c. induction a as [|x a IH]; intros c H.
  - left. exists c. split; [reflexivity | exact H].
  - destruct c as [|y c].
    + right. exists (String x a). split; [reflexivity|]. symmetry. exact H.
    + rewrite !append_cons in H. injection H as -> H.
      destruct (IH c H) as [(m & -> & ->) | (m & -> & ->)].
      * left. exists m. split; reflexivity.
      * right. exists m. split; reflexivity.
Qed.

Lemma one_word_spec (w : string) :
  one_word w = true ->
  w <> "" /\ forall pre post, w <> pre +:+ " " +:+ post.
Proof.
  unfold one_word. intros H. apply andb_prop in H as [Hne Hsp].
  split.
  - intros ->. discriminate.
  - intros pre post Hw.
    assert (Hc : Str.contains " " w = true).
    { apply contains_spec. exists pre, post. exact Hw. }
    rewrite Hc in Hsp. discriminate.
Qed.

(** A phrase of one word is in two texts joined by a space exactly when
    it is in one of the two. *)
Lemma contains_across_space (w x y : string) :
  one_word w = true ->
  Str.contains w (x +:+ " " +:+ y) = Str.contains w x || Str.contains w y.
Proof.
  intros Hw. destruct (one_word_spec w Hw) as [Hne Hsp].
  apply eq_true_iff_eq. rewrite orb_true_iff, !contains_spec. split.
  - intros (pre & post & H).
    apply append_eq_split in H as [(m & -> & H) | (m & -> & H)].
    + right. destruct m as [|c m].
      * rewrite append_nil in H. destruct w as [|c w]; [contradiction|].
        rewrite !append_cons in H. injection H as <- _.
        exfalso. apply (Hsp "" w). reflexivity.
      * rewrite !append_cons in H. injection H as _ H. rewrite append_nil in H.
        exists m, post. exact H.
    + left. symmetry in H.
      apply append_eq_split in H as [(k & Hwk & Hy) | (k & Hm & Hpost)].
      * destruct k as [|c k].
        -- rewrite append_empty_r in Hwk. subst m. exists pre, "".
           rewrite append_empty_r. reflexivity.
        -- rewrite !append_cons in Hy. injection Hy as <- _.
           exfalso. apply (Hsp m k). exact Hwk.
      * exists pre, k. rewrite Hm. reflexivity.
  - intros [(pre & post & ->) | (pre & post & ->)].
    + exists pre, (post +:+ " " +:+ y). rewrite !append_assoc. reflexivity.
    + exists (x +:+ " " +:+ pre), post. rewrite !append_assoc. reflexivity.
Qed.

Lemma any_in_across_space (phrases : list string) (x y : string) :
  forallb one_word phrases = true ->
  Str.any_in phrases (x +:+ " " +:+ y) =
  Str.any_in phrases x || Str.any_in phrases y.
Proof.
  unfold Str.any_in. induction phrases as [|w phrases IH]; simpl; intros H.
  - reflexivity.
  - apply andb_prop in H as [Hw H].
    rewrite (contains_across_space w x y Hw), (IH H).
    destruct (Str.contains w x), (Str.contains w y),
      (existsb (fun w0 => Str.contains w0 x) phrases),
      (existsb (fun w0 => Str.contains w0 y) phrases); reflexivity.
Qed.

(** X14: [_analyze_post] looks for its phrases in the title and the text
    joined by a space, and every phrase is one word, so the join creates
    no match of its own: a post is cited under help_seeking, and under
    discussions, exactly when its lowercased title or its lowercased text
    alone contains one of the phrases.  A missing text counts as empty. *)
Theorem X14_post_matches_in_title_or_text (post : Post.t) (p : persona) :
  let title := Str.lower (Post.title post) in
  let text := Str.lower (default "" (Post.selftext post)) in
  let p' := (_analyze_post post p).1 in
  cites "help_seeking" (interests p') =
    cites "help_seeking" (interests p) ++
    (if Str.any_in ["help"; "advice"; "suggestion"] title
        || Str.any_in ["help"; "advice"; "suggestion"] text
     then [Post.permalink post] else []) /\
  cites "discussions" (interests p') =
    cites "discussions" (interests p) ++
    (if Str.any_in ["discussion"; "debate"; "opinion"] title
        || Str.any_in ["discussion"; "debate"; "opinion"] text
     then [Post.permalink post] else []).
Proof.
  intros title text p'. subst title text p'.
  destruct (analyze_post_citations post p) as [-> _].
  unfold post_text. rewrite !lower_append.
  change (Str.lower " ") with " ".
  rewrite !any_in_across_space by reflexivity.
  rewrite !cites_cite_if.
  rewrite !(bool_decide_eq_true_2 (_ = _)) by reflexivity.
  rewrite (bool_decide_eq_false_2 ("help_seeking" = "discussions")) by discriminate.
  rewrite (bool_decide_eq_false_2 ("discussions" = "help_seeking")) by discriminate.
  rewrite !andb_true_r, !andb_false_r, !app_nil_r.
  split; reflexivity.
Qed.

(** ** The lines of the language-style section *)





